(** * ESP32-C3-Mini GPIO monitor with WiFi configuration portal

    A shallow embedding of the sketch
    [ESP32-C3-Mini-WebserverGPIOmonitor02.ino] and the properties of its
    connectivity life cycle: credential storage, the bounded station
    attempt, the configuration portal with its captive resolver, the reset
    path and the JSON endpoint.

    The sketch is single threaded; every function of the sketch becomes a
    function on the device state [Device].  What the outside world decides
    (the radio's status readings, the levels of the input pins) comes from
    an environment [Env]; what the device does to the outside world (station
    attempts, name-resolution replies, HTTP responses, restarts) is recorded
    in [trace], newest event first.  [Serial] output has no effect on any
    of this and is left out. *)

From Stdlib Require Import ZArith String Ascii List Bool Lia DecimalString.
From stdpp Require Import gmap strings.
From Equations Require Import Equations.
From Equations.Prop Require Import Logic.
Import ListNotations.

Local Open Scope string_scope.
Local Open Scope Z_scope.
Local Open Scope list_scope.

#[local] Set Warnings "-register-all".

(** ** Values of the Arduino core *)

(** [wl_status_t], what [WiFi.status()] reports. *)
Inductive wl_status_t :=
| WL_NO_SHIELD
| WL_IDLE_STATUS
| WL_NO_SSID_AVAIL
| WL_CONNECTED
| WL_CONNECT_FAILED
| WL_CONNECTION_LOST
| WL_DISCONNECTED.

#[global] Instance wl_status_eq_dec : EqDecision wl_status_t.
Proof. solve_decision. Defined.

(** [wifi_mode_t], the argument of [WiFi.mode()]. *)
Inductive wifi_mode_t := WIFI_OFF | WIFI_STA | WIFI_AP | WIFI_AP_STA.

#[global] Instance wifi_mode_eq_dec : EqDecision wifi_mode_t.
Proof. solve_decision. Defined.

Definition sta_enabled (m : wifi_mode_t) : bool :=
  match m with WIFI_STA | WIFI_AP_STA => true | _ => false end.

Definition ap_enabled (m : wifi_mode_t) : bool :=
  match m with WIFI_AP | WIFI_AP_STA => true | _ => false end.

Definition IPAddress : Type := Z * Z * Z * Z.

(** The address the core gives the soft access point, and the address of an
    interface that is down. *)
Definition AP_DEFAULT_IP : IPAddress := (192, 168, 4, 1).
Definition IP_NONE : IPAddress := (0, 0, 0, 0).

(** [HIGH] and [LOW] of [digitalRead]. *)
Definition HIGH : Z := 1.
Definition LOW : Z := 0.

(** [String::c_str()]: the C view of a [String] ends at the first NUL. *)
Fixpoint c_str (s : string) : string :=
  match s with
  | EmptyString => EmptyString
  | String c r => if Ascii.eqb c Ascii.zero then EmptyString else String c (c_str r)
  end.

(** [String(int)]: the decimal text of an [int]. *)
Definition String_of_int (z : Z) : string := NilZero.string_of_int (Z.to_int z).

(** [unsigned long] arithmetic wraps at 2^32. *)
Definition wrap32 (z : Z) : Z := z mod 2 ^ 32.

(** ** Constants of the sketch *)

Definition GPIO_PINS : list Z := [0; 1; 3; 4; 5].
Definition NUM_PINS : Z := 5.
Definition DNS_PORT : Z := 53.
Definition ap_ssid : string := "ESP32-C3-Config".
Definition ap_password : string := "12345678".
Definition WIFI_TIMEOUT : Z := 10000.

(** ** The outside world *)

(** The environment fixes the [n]-th reading of the station's status (an
    arbitrary sequence: the radio may connect, fail, or lose the link at any
    reading) and the level of every pin. *)
Record Env := {
  air : nat -> wl_status_t;
  pin_level : Z -> Z
}.

Inductive HTTPMethod := HTTP_GET | HTTP_POST | HTTP_OTHER.

#[global] Instance HTTPMethod_eq_dec : EqDecision HTTPMethod.
Proof. solve_decision. Defined.

Record Request := {
  method : HTTPMethod;
  uri : string;
  args : list (string * string)
}.

(** The pages of the sketch.  Their markup is fixed text around the values
    named here and plays no part in the life cycle. *)
Inductive Page :=
| PageRoot
| PageConfig
| PageScan
| PageConnect (newSSID : string)
| PageReset.

Inductive Body := Html (p : Page) | Json (s : string) | Plain (s : string).

Inductive Event :=
| EvBegin (ssid password : string)          (* WiFi.begin(ssid, password) *)
| EvDnsReply (name : string) (ip : IPAddress) (* answer of the resolver *)
| EvDnsRefuse (name : string)               (* error reply of the resolver *)
| EvSend (code : Z) (ctype : string) (b : Body) (* server.send(...) *)
| EvRestart.                                (* ESP.restart() *)

Definition is_begin (ev : Event) : bool :=
  match ev with EvBegin _ _ => true | _ => false end.

(** What one pass of [loop()] finds waiting: at most one name-resolution
    query on the resolver's socket and at most one HTTP request. *)
Record Tick := {
  dns_query : option string;
  http : option Request
}.

(** ** The device *)

Record dns_server_t := {
  dns_port : Z;
  dns_domain : string;
  dns_ip : IPAddress
}.

Record Device := {
  nvs : gmap string (gmap string string); (* flash: namespace -> key -> value *)
  prefs : option (string * bool);         (* the open Preferences handle *)
  ssid : string;
  password : string;
  configMode : bool;
  wifi_mode : wifi_mode_t;
  sta_status : wl_status_t;               (* status of the station link *)
  polls : nat;                            (* status readings taken so far *)
  softap : option (string * string);      (* the running soft access point *)
  dns : option dns_server_t;                 (* the running resolver *)
  millis : Z;                             (* the millisecond clock *)
  trace : list Event
}.

Definition set_nvs (v : gmap string (gmap string string)) (d : Device) : Device :=
  {| nvs := v; prefs := prefs d; ssid := ssid d; password := password d;
     configMode := configMode d; wifi_mode := wifi_mode d;
     sta_status := sta_status d; polls := polls d; softap := softap d;
     dns := dns d; millis := millis d; trace := trace d |}.

Definition set_prefs (v : option (string * bool)) (d : Device) : Device :=
  {| nvs := nvs d; prefs := v; ssid := ssid d; password := password d;
     configMode := configMode d; wifi_mode := wifi_mode d;
     sta_status := sta_status d; polls := polls d; softap := softap d;
     dns := dns d; millis := millis d; trace := trace d |}.

Definition set_ssid (v : string) (d : Device) : Device :=
  {| nvs := nvs d; prefs := prefs d; ssid := v; password := password d;
     configMode := configMode d; wifi_mode := wifi_mode d;
     sta_status := sta_status d; polls := polls d; softap := softap d;
     dns := dns d; millis := millis d; trace := trace d |}.

Definition set_password (v : string) (d : Device) : Device :=
  {| nvs := nvs d; prefs := prefs d; ssid := ssid d; password := v;
     configMode := configMode d; wifi_mode := wifi_mode d;
     sta_status := sta_status d; polls := polls d; softap := softap d;
     dns := dns d; millis := millis d; trace := trace d |}.

Definition set_configMode (v : bool) (d : Device) : Device :=
  {| nvs := nvs d; prefs := prefs d; ssid := ssid d; password := password d;
     configMode := v; wifi_mode := wifi_mode d; sta_status := sta_status d;
     polls := polls d; softap := softap d; dns := dns d; millis := millis d;
     trace := trace d |}.

Definition set_wifi_mode (v : wifi_mode_t) (d : Device) : Device :=
  {| nvs := nvs d; prefs := prefs d; ssid := ssid d; password := password d;
     configMode := configMode d; wifi_mode := v; sta_status := sta_status d;
     polls := polls d; softap := softap d; dns := dns d; millis := millis d;
     trace := trace d |}.

Definition set_sta_status (v : wl_status_t) (d : Device) : Device :=
  {| nvs := nvs d; prefs := prefs d; ssid := ssid d; password := password d;
     configMode := configMode d; wifi_mode := wifi_mode d; sta_status := v;
     polls := polls d; softap := softap d; dns := dns d; millis := millis d;
     trace := trace d |}.

Definition set_polls (v : nat) (d : Device) : Device :=
  {| nvs := nvs d; prefs := prefs d; ssid := ssid d; password := password d;
     configMode := configMode d; wifi_mode := wifi_mode d;
     sta_status := sta_status d; polls := v; softap := softap d;
     dns := dns d; millis := millis d; trace := trace d |}.

Definition set_softap (v : option (string * string)) (d : Device) : Device :=
  {| nvs := nvs d; prefs := prefs d; ssid := ssid d; password := password d;
     configMode := configMode d; wifi_mode := wifi_mode d;
     sta_status := sta_status d; polls := polls d; softap := v; dns := dns d;
     millis := millis d; trace := trace d |}.

Definition set_dns (v : option dns_server_t) (d : Device) : Device :=
  {| nvs := nvs d; prefs := prefs d; ssid := ssid d; password := password d;
     configMode := configMode d; wifi_mode := wifi_mode d;
     sta_status := sta_status d; polls := polls d; softap := softap d;
     dns := v; millis := millis d; trace := trace d |}.

Definition set_millis (v : Z) (d : Device) : Device :=
  {| nvs := nvs d; prefs := prefs d; ssid := ssid d; password := password d;
     configMode := configMode d; wifi_mode := wifi_mode d;
     sta_status := sta_status d; polls := polls d; softap := softap d;
     dns := dns d; millis := v; trace := trace d |}.

Definition set_trace (v : list Event) (d : Device) : Device :=
  {| nvs := nvs d; prefs := prefs d; ssid := ssid d; password := password d;
     configMode := configMode d; wifi_mode := wifi_mode d;
     sta_status := sta_status d; polls := polls d; softap := softap d;
     dns := dns d; millis := millis d; trace := v |}.

(** ** The clock *)

(** Time passes in [delay] only; [millis()] reads the clock. *)
Definition delay (ms : Z) (d : Device) : Device :=
  set_millis (wrap32 (millis d + ms)) d.

(** [millis() - startTime] in [unsigned long]. *)
Definition elapsed (startTime : Z) (d : Device) : Z :=
  wrap32 (millis d - startTime).

(** ** Preferences (non-volatile storage) *)

(** A string value of the storage holds at most 4000 bytes, terminator
    included. *)
Definition NVS_STR_MAX : nat := 3999.

(** The [Preferences] object [preferences] of the core, the sketch's
    credential store: named namespaces of string values under string keys,
    reached through one handle that is opened and closed around every
    use.  An absent namespace and an absent key both read as the default. *)
Module Preferences.

(** [begin(name, readOnly)] opens the namespace unless a handle is open. *)
Definition begin_ (name : string) (readOnly : bool) (d : Device) : Device :=
  match prefs d with
  | Some _ => d
  | None => set_prefs (Some (name, readOnly)) d
  end.

(** [end()] closes the handle. *)
Definition end_ (d : Device) : Device := set_prefs None d.

(** What the flash holds under a key of a namespace. *)
Definition stored (ns key : string) (d : Device) : option string :=
  nvs d !! ns ≫= (.!! key).

(** [getString(key, defaultValue)]: the default when the key, the
    namespace or the handle is missing. *)
Definition getString (key defaultValue : string) (d : Device) : string :=
  match prefs d with
  | Some (ns, _) => default defaultValue (stored ns key d)
  | None => defaultValue
  end.

(** [putString(key, value)] stores the C string of [value]; nothing is
    stored without a writable handle or when the value is too long. *)
Definition putString (key value : string) (d : Device) : Device :=
  match prefs d with
  | Some (ns, false) =>
      let v := c_str value in
      if (String.length v <=? NVS_STR_MAX)%nat
      then set_nvs (<[ns := <[key := v]> (default ∅ (nvs d !! ns))]> (nvs d)) d
      else d
  | _ => d
  end.

(** [clear()] erases every key of the open namespace. *)
Definition clear (d : Device) : Device :=
  match prefs d with
  | Some (ns, false) => set_nvs (delete ns (nvs d)) d
  | _ => d
  end.

End Preferences.

(** ** WiFi *)

(** The [WiFi] object of the core, as far as the sketch drives it: the
    interfaces that are up, the station link, the soft access point. *)
Module WiFi.

(** [mode(m)] selects the interfaces that are up. *)
Definition mode (m : wifi_mode_t) (d : Device) : Device := set_wifi_mode m d.

(** [begin(ssid, password)] starts one station attempt. *)
Definition begin_ (ssid password : string) (d : Device) : Device :=
  set_trace (EvBegin ssid password :: trace d) d.

(** [status()]: with the station interface up the radio reports its next
    reading; with the interface down the status cannot change. *)
Definition status (e : Env) (d : Device) : wl_status_t * Device :=
  if sta_enabled (wifi_mode d)
  then let r := air e (polls d) in
       (r, set_polls (S (polls d)) (set_sta_status r d))
  else (sta_status d, d).

(** [disconnect()] drops the station link. *)
Definition disconnect (d : Device) : Device := set_sta_status WL_DISCONNECTED d.

(** [softAP(ssid, passphrase)] starts the access point. *)
Definition softAP (ssid passphrase : string) (d : Device) : Device :=
  set_softap (Some (ssid, passphrase)) d.

(** [softAPdisconnect(wifioff)] stops the access point and, with
    [wifioff], takes the access-point interface down. *)
Definition softAPdisconnect (wifioff : bool) (d : Device) : Device :=
  let d := set_softap None d in
  if wifioff
  then set_wifi_mode (match wifi_mode d with
                      | WIFI_AP => WIFI_OFF
                      | WIFI_AP_STA => WIFI_STA
                      | m => m
                      end) d
  else d.

(** [softAPIP()]: the address of the access point while it is up. *)
Definition softAPIP (d : Device) : IPAddress :=
  if ap_enabled (wifi_mode d) && bool_decide (is_Some (softap d))
  then AP_DEFAULT_IP else IP_NONE.

End WiFi.

(** ** The captive resolver *)

(** The [DNSServer] object [dnsServer].  Its class is not part of the
    sketch; the three calls the sketch makes are modelled on the
    specification of the captive resolver. *)
Module DNSServer.

(** Modelled from the spec: [DNSServer::start], the resolver's [bind].  The
    server is bound to [port] and will resolve [domainName] to
    [resolvedIP]. *)
Definition start (port : Z) (domainName : string) (resolvedIP : IPAddress)
    (d : Device) : Device :=
  set_dns (Some {| dns_port := port; dns_domain := domainName;
                   dns_ip := resolvedIP |}) d.

(** Modelled from the spec: [DNSServer::stop], which releases the
    resolver's socket. *)
Definition stop (d : Device) : Device := set_dns None d.

(** Modelled from the spec: [DNSServer::processNextRequest], the resolver's
    [service_pending].  A single pass that does not block: it answers the
    query [q] waiting on the socket, if any, and returns.  A server started
    for the domain ["*"] answers every name with its address (wildcard
    resolution); any other server answers its own name and refuses the
    rest.  Without a query, or without a started server, nothing happens. *)
Definition processNextRequest (q : option string) (d : Device) : Device :=
  match dns d, q with
  | Some srv, Some name =>
      if String.eqb (dns_domain srv) "*" || String.eqb name (dns_domain srv)
      then set_trace (EvDnsReply name (dns_ip srv) :: trace d) d
      else set_trace (EvDnsRefuse name :: trace d) d
  | _, _ => d
  end.

End DNSServer.

(** ** The web server *)

(** The [WebServer] object [server]: the arguments of the request being
    handled and the response sent for it. *)
Module Server.

(** [server.arg(name)]: the value of the first argument of that name, the
    empty [String] when there is none. *)
Definition arg (name : string) (r : Request) : string :=
  match find (fun kv => String.eqb (fst kv) name) (args r) with
  | Some kv => snd kv
  | None => EmptyString
  end.

Definition send (code : Z) (ctype : string) (b : Body) (d : Device) : Device :=
  set_trace (EvSend code ctype b :: trace d) d.

End Server.

(** ** The sketch *)

(** [digitalRead(pin)]. *)
Definition digitalRead (e : Env) (pin : Z) : Z := pin_level e pin.

(** [initializeGPIO()] sets the direction of the pins, which the device
    state does not record. *)
Definition initializeGPIO (d : Device) : Device := d.

Definition loadCredentials (d : Device) : Device :=
  let d := Preferences.begin_ "wifi" false d in
  let d := set_ssid (Preferences.getString "ssid" EmptyString d) d in
  let d := set_password (Preferences.getString "password" EmptyString d) d in
  Preferences.end_ d.

Definition saveCredentials (newSSID newPassword : string) (d : Device) : Device :=
  let d := Preferences.begin_ "wifi" false d in
  let d := Preferences.putString "ssid" newSSID d in
  let d := Preferences.putString "password" newPassword d in
  let d := Preferences.end_ d in
  let d := set_ssid newSSID d in
  set_password newPassword d.

(** The test of the wait loop of [connectToWiFi], on the state after the
    status reading:
    [WiFi.status() != WL_CONNECTED && millis() - startTime < WIFI_TIMEOUT]. *)
Definition still_waiting (st : wl_status_t) (startTime : Z) (d : Device) : bool :=
  negb (bool_decide (st = WL_CONNECTED)) && (elapsed startTime d <? WIFI_TIMEOUT).

(** The wait loop itself: [while (...) { delay(500); }].  Every pass takes
    500 ms off the time left before the deadline, which is the measure of
    the recursion. *)
Equations? wait_loop (e : Env) (startTime : Z) (d : Device) : Device
  by wf (Z.to_nat (WIFI_TIMEOUT - elapsed startTime d)) lt :=
  wait_loop e startTime d
    with inspect (still_waiting (fst (WiFi.status e d)) startTime
                                (snd (WiFi.status e d))) := {
    | exist _ true Hw => wait_loop e startTime (delay 500 (snd (WiFi.status e d)));
    | exist _ false _ => snd (WiFi.status e d) }.
Proof.
  unfold still_waiting in Hw. apply andb_prop in Hw as [_ Hlt].
  apply Z.ltb_lt in Hlt.
  assert (Hs : elapsed startTime (snd (WiFi.status e d)) = elapsed startTime d)
    by (unfold WiFi.status; destruct (sta_enabled _); reflexivity).
  assert (Hd : elapsed startTime (delay 500 (snd (WiFi.status e d)))
               = wrap32 (elapsed startTime d + 500)).
  { rewrite <- Hs. unfold elapsed, delay, wrap32. cbn [millis set_millis].
    rewrite Zminus_mod_idemp_l, Zplus_mod_idemp_l. f_equal. lia. }
  rewrite Hd. rewrite Hs in Hlt.
  assert (0 <= elapsed startTime d) by (apply Z.mod_pos_bound; lia).
  unfold wrap32. rewrite Z.mod_small by (unfold WIFI_TIMEOUT in *; lia).
  lia.
Qed.

(** [connectToWiFi(ssid, password)]: one station attempt, bounded by
    [WIFI_TIMEOUT]. *)
Definition connectToWiFi (e : Env) (ssid password : string) (d : Device)
    : bool * Device :=
  let d := WiFi.mode WIFI_STA d in
  let d := WiFi.begin_ ssid password d in
  let startTime := millis d in
  let d := wait_loop e startTime d in
  let (st, d) := WiFi.status e d in
  if bool_decide (st = WL_CONNECTED)
  then (true, set_configMode false d)
  else (false, WiFi.disconnect d).

Definition startConfigPortal (d : Device) : Device :=
  let d := set_configMode true d in
  let d := WiFi.disconnect d in
  let d := delay 100 d in
  let d := WiFi.mode WIFI_AP d in
  let d := WiFi.softAP ap_ssid ap_password d in
  let d := delay 500 d in
  DNSServer.start DNS_PORT "*" (WiFi.softAPIP d) d.

(** [setup()].  [setupWebServer()] registers the same routes every time it
    runs; they are the dispatch of [handleClient] below. *)
Definition setup (e : Env) (d : Device) : Device :=
  let d := delay 1000 d in
  let d := initializeGPIO d in
  let d := loadCredentials d in
  if (0 <? String.length (ssid d))%nat
  then let (ok, d) := connectToWiFi e (c_str (ssid d)) (c_str (password d)) d in
       if negb ok then startConfigPortal d else d
  else startConfigPortal d.

(** The state the chip starts from: the flash survives, everything else is
    as the sketch initialises it. *)
Definition power_on (flash : gmap string (gmap string string)) : Device :=
  {| nvs := flash; prefs := None; ssid := EmptyString; password := EmptyString;
     configMode := false; wifi_mode := WIFI_OFF; sta_status := WL_NO_SHIELD;
     polls := 0; softap := None; dns := None; millis := 0; trace := [] |}.

(** [ESP.restart()]: the chip starts over from its flash and runs
    [setup()] again; the radio's readings and the record of what the device
    did go on. *)
Definition ESP_restart (e : Env) (d : Device) : Device :=
  setup e (set_trace (EvRestart :: trace d)
             (set_polls (polls d) (power_on (nvs d)))).

(** A handler either returns to [loop()] or restarts the chip. *)
Inductive Control :=
| Running (d : Device)
| Restarted (d : Device).

(** *** The request handlers *)

Definition handleRoot (d : Device) : Device :=
  Server.send 200 "text/html" (Html PageRoot) d.

Definition handleConfigPage (d : Device) : Device :=
  Server.send 200 "text/html" (Html PageConfig) d.

(** [handleScan()]: the scan is a pass-through that leaves nothing behind
    in the device state. *)
Definition handleScan (d : Device) : Device :=
  Server.send 200 "text/html" (Html PageScan) d.

Definition handleConnect (e : Env) (r : Request) (d : Device) : Device :=
  let newSSID := Server.arg "ssid" r in
  let newPassword := Server.arg "password" r in
  let d := Server.send 200 "text/html" (Html (PageConnect newSSID)) d in
  let d := delay 1000 d in
  let d := saveCredentials newSSID newPassword d in
  let d := DNSServer.stop d in
  let d := WiFi.softAPdisconnect true d in
  let (ok, d) := connectToWiFi e (c_str newSSID) (c_str newPassword) d in
  let d := if ok then set_configMode false d else startConfigPortal d in
  delay 100 d.

(** The double quote of the JSON text. *)
Definition dq : string := String (ascii_of_nat 34) EmptyString.

(** The body of the [for] loop of [handleGPIOAPI] for index [i]. *)
Definition gpio_entry (e : Env) (i : nat) (json : string) : string :=
  let pin := nth i GPIO_PINS 0 in
  let state := digitalRead e pin in
  let stateStr := if state =? HIGH then "HIGH" else "LOW" in
  let json := if (0 <? i)%nat then json +:+ "," else json in
  json +:+ ("{" +:+ dq +:+ "gpio" +:+ dq +:+ ":" +:+ String_of_int pin +:+ ","
            +:+ dq +:+ "state" +:+ dq +:+ ":" +:+ dq +:+ stateStr +:+ dq +:+ "}").

(** [for (int i = 0; i < NUM_PINS; i++)], as a fold over the indices. *)
Definition gpio_json (e : Env) : string :=
  let json := "{" +:+ dq +:+ "pins" +:+ dq +:+ ":[" in
  let json := fold_left (fun json i => gpio_entry e i json)
                        (seq 0 (Z.to_nat NUM_PINS)) json in
  json +:+ "]}".

Definition handleGPIOAPI (e : Env) (d : Device) : Device :=
  Server.send 200 "application/json" (Json (gpio_json e)) d.

Definition handleReset (e : Env) (d : Device) : Device :=
  let d := Server.send 200 "text/html" (Html PageReset) d in
  let d := Preferences.begin_ "wifi" false d in
  let d := Preferences.clear d in
  let d := Preferences.end_ d in
  let d := delay 2000 d in
  ESP_restart e d.

(** [server.handleClient()] with the routes of [setupWebServer()]. *)
Definition handleClient (e : Env) (req : option Request) (d : Device) : Control :=
  match req with
  | None => Running d
  | Some r =>
      match method r with
      | HTTP_GET =>
          if String.eqb (uri r) "/"
          then Running (if configMode d then handleConfigPage d else handleRoot d)
          else if String.eqb (uri r) "/gpio" then Running (handleRoot d)
          else if String.eqb (uri r) "/scan" then Running (handleScan d)
          else if String.eqb (uri r) "/api/gpio" then Running (handleGPIOAPI e d)
          else Running (if configMode d then handleConfigPage d
                        else Server.send 404 "text/plain" (Plain "Not found") d)
      | HTTP_POST =>
          if String.eqb (uri r) "/connect" then Running (handleConnect e r d)
          else if String.eqb (uri r) "/reset" then Restarted (handleReset e d)
          else Running (if configMode d then handleConfigPage d
                        else Server.send 404 "text/plain" (Plain "Not found") d)
      | HTTP_OTHER =>
          Running (if configMode d then handleConfigPage d
                   else Server.send 404 "text/plain" (Plain "Not found") d)
      end
  end.

(** The end of [loop()]: "Check WiFi connection and attempt reconnect if
    needed".  The flag is tested first, so the radio is asked only outside
    the portal. *)
Definition check_link (e : Env) (d : Device) : Device :=
  if configMode d then d
  else let (st, d) := WiFi.status e d in
       if bool_decide (st = WL_CONNECTED) then d
       else let (ok, d) :=
              connectToWiFi e (c_str (ssid d)) (c_str (password d)) d in
            if negb ok then startConfigPortal d else d.

(** [loop()].  After a restart the pass is over: the chip has run
    [setup()] again and will enter [loop()] afresh. *)
Definition loop (e : Env) (t : Tick) (d : Device) : Device :=
  let d := if configMode d
           then DNSServer.processNextRequest (dns_query t) d else d in
  match handleClient e (http t) d with
  | Restarted d => d
  | Running d => delay 10 (check_link e d)
  end.

(** The device after power-on and a sequence of passes of [loop()]. *)
Definition run (e : Env) (ticks : list Tick) (d : Device) : Device :=
  fold_left (fun d t => loop e t d) ticks d.

Definition boot (e : Env) (flash : gmap string (gmap string string)) : Device :=
  setup e (power_on flash).

(** * Notions of the statements *)

(** ** The wait loop, by passes *)

(** The same loop written with a bound on the number of tests, counting
    the passes through its body: [None] when the bound is too small. *)
Fixpoint wait_iter (fuel : nat) (e : Env) (startTime : Z) (d : Device)
    : option (nat * Device) :=
  match fuel with
  | O => None
  | S fuel' =>
      let (st, d) := WiFi.status e d in
      if still_waiting st startTime d
      then match wait_iter fuel' e startTime (delay 500 d) with
           | Some (k, d') => Some (S k, d')
           | None => None
           end
      else Some (O, d)
  end.

(** Two states that differ at most in the link status, the number of
    readings and the clock: all that waiting can change. *)
Definition same_but_radio (d d' : Device) : Prop :=
  nvs d' = nvs d /\ prefs d' = prefs d /\ ssid d' = ssid d /\
  password d' = password d /\ configMode d' = configMode d /\
  wifi_mode d' = wifi_mode d /\ softap d' = softap d /\ dns d' = dns d /\
  trace d' = trace d.

(** ** One station attempt *)

(** What an attempt leaves behind, whatever the radio reported: the
    credentials, the storage, the access point and the resolver are as
    before, one [WiFi.begin] was issued, and the flag and the link agree
    with the result. *)
Definition attempt_outcome (ssid' password' : string) (d : Device)
    (r : bool * Device) : Prop :=
  let (ok, d') := r in
  nvs d' = nvs d /\ prefs d' = prefs d /\ ssid d' = ssid d /\
  password d' = password d /\ softap d' = softap d /\ dns d' = dns d /\
  wifi_mode d' = WIFI_STA /\
  trace d' = EvBegin ssid' password' :: trace d /\
  if ok then configMode d' = false /\ sta_status d' = WL_CONNECTED
  else configMode d' = configMode d /\ sta_status d' = WL_DISCONNECTED.

(** ** Connectivity modes *)

Inductive ConnectivityMode := Uninitialized | Connecting | Connected | PortalActive.

#[global] Instance ConnectivityMode_eq_dec : EqDecision ConnectivityMode.
Proof. solve_decision. Defined.

(** The mode as the device has it: the radio not yet started; the station
    interface up without a link; the station interface up and linked; the
    portal flag set. *)
Definition in_mode (m : ConnectivityMode) (d : Device) : Prop :=
  match m with
  | Uninitialized => wifi_mode d = WIFI_OFF
  | Connecting => sta_enabled (wifi_mode d) = true /\ sta_status d <> WL_CONNECTED
  | Connected => sta_enabled (wifi_mode d) = true /\ sta_status d = WL_CONNECTED
  | PortalActive => configMode d = true
  end.

(** The mode read off the state, in the order the sketch consults its
    flag and the radio. *)
Definition current_mode (d : Device) : ConnectivityMode :=
  if configMode d then PortalActive
  else if bool_decide (sta_status d = WL_CONNECTED) then Connected
  else if bool_decide (wifi_mode d = WIFI_OFF) then Uninitialized
  else Connecting.

(** The two states the sketch rests in between passes of [loop()]. *)
Definition online (d : Device) : Prop :=
  configMode d = false /\ wifi_mode d = WIFI_STA /\ sta_status d = WL_CONNECTED.

Definition portal (d : Device) : Prop :=
  configMode d = true /\ wifi_mode d = WIFI_AP /\
  sta_status d = WL_DISCONNECTED /\
  softap d = Some (ap_ssid, ap_password) /\
  dns d = Some {| dns_port := DNS_PORT; dns_domain := "*";
                  dns_ip := AP_DEFAULT_IP |}.

(** Between two sketch functions no storage handle is open, and the device
    is either on line or serving the portal. *)
Definition settled (d : Device) : Prop :=
  prefs d = None /\ (online d \/ portal d).

(** The two requests that change the connectivity: POST /connect and
    POST /reset. *)
Definition is_submission (req : option Request) : bool :=
  match req with
  | Some r => bool_decide (method r = HTTP_POST) && String.eqb (uri r) "/connect"
  | None => false
  end.

Definition is_reset (req : option Request) : bool :=
  match req with
  | Some r => bool_decide (method r = HTTP_POST) && String.eqb (uri r) "/reset"
  | None => false
  end.

(** ** Worked instances *)

(** Sample surroundings for the worked instances: a radio that connects
    at once, a radio that never connects, and a flash that holds the
    credential of a network named home. *)
Definition air_up : Env :=
  {| air := fun _ => WL_CONNECTED; pin_level := fun _ => HIGH |}.

Definition air_down : Env :=
  {| air := fun _ => WL_DISCONNECTED; pin_level := fun _ => HIGH |}.

(** A radio that connects from its 23rd reading on, with pin 3 held low. *)
Definition air_late : Env :=
  {| air := fun n => if (n <? 22)%nat then WL_DISCONNECTED else WL_CONNECTED;
     pin_level := fun pin => if pin =? 3 then LOW else HIGH |}.

Definition home_flash : gmap string (gmap string string) :=
  <["wifi" := <["ssid" := "home"]> (<["password" := "secret123"]> ∅)]> ∅.

(** ** Identities and submissions *)

(** A [String] that is its own C string: it holds no NUL. *)
Definition is_c_string (s : string) : Prop := c_str s = s.

(** The bounds of the radio standard on a network name and its secret. *)
Definition SSID_MAX : nat := 32.
Definition SECRET_MAX : nat := 64.


Definition office_request : Request :=
  {| method := HTTP_POST; uri := "/connect";
     args := [("ssid", "office"); ("password", "pw")] |}.

Definition empty_name_request (secret : string) : Request :=
  {| method := HTTP_POST; uri := "/connect";
     args := [("ssid", EmptyString); ("password", secret)] |}.

(** A pass of [loop()] that finds one query and no request, and a pass
    that finds nothing. *)
Definition query_tick (name : string) : Tick :=
  {| dns_query := Some name; http := None |}.

Definition idle_tick : Tick := {| dns_query := None; http := None |}.

(** ** JSON *)

(** JSON documents, and a reader for the texts built from objects, arrays,
    strings without escapes, integers and the three literals.  A text the
    reader accepts is well-formed JSON. *)
Inductive json :=
| JNull
| JBool (b : bool)
| JNumber (z : Z)
| JString (s : string)
| JArray (items : list json)
| JObject (members : list (string * json)).

Module JsonReader.

Definition quote : ascii := ascii_of_nat 34.

Definition is_ws (c : ascii) : bool :=
  let n := nat_of_ascii c in
  ((n =? 32) || (n =? 9) || (n =? 10) || (n =? 13))%nat.

Definition is_digit (c : ascii) : bool :=
  let n := nat_of_ascii c in ((48 <=? n) && (n <=? 57))%nat.

Definition digit_value (c : ascii) : Z := Z.of_nat (nat_of_ascii c) - 48.

Fixpoint skip_ws (s : string) : string :=
  match s with
  | String c r => if is_ws c then skip_ws r else s
  | EmptyString => s
  end.

(** The characters of a string up to its closing quote; control
    characters and escapes are refused. *)
Fixpoint read_chars (s : string) : option (string * string) :=
  match s with
  | EmptyString => None
  | String c r =>
      if Ascii.eqb c quote then Some (EmptyString, r)
      else if Ascii.eqb c "\"%char || (nat_of_ascii c <? 32)%nat then None
      else match read_chars r with
           | Some (body, rest) => Some (String c body, rest)
           | None => None
           end
  end.

Fixpoint read_digits (s : string) (acc : Z) : Z * string :=
  match s with
  | String c r => if is_digit c then read_digits r (10 * acc + digit_value c)
                  else (acc, s)
  | EmptyString => (acc, s)
  end.

(** An integer: a digit string without a leading zero, after an
    optional minus sign. *)
Definition read_natural (s : string) : option (Z * string) :=
  match s with
  | String c r =>
      if Ascii.eqb c "0"%char then Some (0, r)
      else if is_digit c then Some (read_digits r (digit_value c))
      else None
  | EmptyString => None
  end.

Definition read_number (s : string) : option (json * string) :=
  match s with
  | String c r =>
      if Ascii.eqb c "-"%char
      then match read_natural r with
           | Some (z, rest) => Some (JNumber (- z), rest)
           | None => None
           end
      else match read_natural s with
           | Some (z, rest) => Some (JNumber z, rest)
           | None => None
           end
  | EmptyString => None
  end.

Fixpoint strip (p s : string) : option string :=
  match p, s with
  | EmptyString, _ => Some s
  | String a p', String b s' => if Ascii.eqb a b then strip p' s' else None
  | _, EmptyString => None
  end.

Definition read_literal (s : string) : option (json * string) :=
  match strip "true" s, strip "false" s, strip "null" s with
  | Some r, _, _ => Some (JBool true, r)
  | _, Some r, _ => Some (JBool false, r)
  | _, _, Some r => Some (JNull, r)
  | _, _, _ => None
  end.

Fixpoint read_value (fuel : nat) (s : string) : option (json * string) :=
  match fuel with
  | O => None
  | S fuel' =>
      match skip_ws s with
      | EmptyString => None
      | String c r =>
          if Ascii.eqb c "{"%char then
            match skip_ws r with
            | String c' r' =>
                if Ascii.eqb c' "}"%char then Some (JObject [], r')
                else read_members fuel' r []
            | EmptyString => None
            end
          else if Ascii.eqb c "["%char then
            match skip_ws r with
            | String c' r' =>
                if Ascii.eqb c' "]"%char then Some (JArray [], r')
                else read_items fuel' r []
            | EmptyString => None
            end
          else if Ascii.eqb c quote then
            match read_chars r with
            | Some (body, rest) => Some (JString body, rest)
            | None => None
            end
          else if Ascii.eqb c "-"%char || is_digit c then
            read_number (String c r)
          else read_literal (String c r)
      end
  end
with read_items (fuel : nat) (s : string) (acc : list json)
    : option (json * string) :=
  match fuel with
  | O => None
  | S fuel' =>
      match read_value fuel' s with
      | Some (v, r) =>
          match skip_ws r with
          | String c r' =>
              if Ascii.eqb c ","%char then read_items fuel' r' (v :: acc)
              else if Ascii.eqb c "]"%char
                   then Some (JArray (rev (v :: acc)), r')
                   else None
          | EmptyString => None
          end
      | None => None
      end
  end
with read_members (fuel : nat) (s : string) (acc : list (string * json))
    : option (json * string) :=
  match fuel with
  | O => None
  | S fuel' =>
      match skip_ws s with
      | String c r =>
          if Ascii.eqb c quote then
            match read_chars r with
            | Some (key, r1) =>
                match skip_ws r1 with
                | String c1 r2 =>
                    if Ascii.eqb c1 ":"%char then
                      match read_value fuel' r2 with
                      | Some (v, r3) =>
                          match skip_ws r3 with
                          | String c3 r4 =>
                              if Ascii.eqb c3 ","%char
                              then read_members fuel' r4 ((key, v) :: acc)
                              else if Ascii.eqb c3 "}"%char
                                   then Some (JObject (rev ((key, v) :: acc)), r4)
                                   else None
                          | EmptyString => None
                          end
                      | None => None
                      end
                    else None
                | EmptyString => None
                end
            | None => None
            end
          else None
      | EmptyString => None
      end
  end.

(** A whole text: one value and nothing but white space after it. *)
Definition read (s : string) : option json :=
  match read_value (S (String.length s)) s with
  | Some (v, rest) =>
      match skip_ws rest with
      | EmptyString => Some v
      | String _ _ => None
      end
  | None => None
  end.

End JsonReader.

(** The document the endpoint is to produce, in the words of the claim:
    one object whose member [pins] lists, for the pins of [GPIO_PINS] in
    order, the pin number and ["HIGH"] when the pin reads [HIGH], ["LOW"]
    otherwise. *)
Definition pin_entry (e : Env) (pin : Z) : json :=
  JObject [("gpio", JNumber pin);
           ("state", JString (if pin_level e pin =? HIGH then "HIGH" else "LOW"))].

Definition gpio_document (e : Env) : json :=
  JObject [("pins", JArray (map (pin_entry e) GPIO_PINS))].

(** * Further notions *)

(** ** Counting what a run did *)

Definition is_send (ev : Event) : bool :=
  match ev with EvSend _ _ _ => true | _ => false end.

Definition is_dns (ev : Event) : bool :=
  match ev with EvDnsReply _ _ | EvDnsRefuse _ => true | _ => false end.

(** The number of events of one kind in a record. *)
Definition count_events (kind : Event -> bool) (tr : list Event) : nat :=
  length (List.filter kind tr).

(** The number of requests a pass finds waiting. *)
Definition requests_waiting (t : Tick) : nat :=
  match http t with Some _ => 1 | None => 0 end.

(** The device a handler leaves, returned or restarted. *)
Definition after_handler (c : Control) : Device :=
  match c with Running d => d | Restarted d => d end.

(** The paths that have a handler of their own for GET, and for POST. *)
Definition get_route (path : string) : bool :=
  String.eqb path "/" || String.eqb path "/gpio" || String.eqb path "/scan"
  || String.eqb path "/api/gpio".

Definition post_route (path : string) : bool :=
  String.eqb path "/connect" || String.eqb path "/reset".

(** A request is routed when [setupWebServer] registered a handler for
    its method and path; every other request goes to [onNotFound]. *)
Definition routed (r : Request) : bool :=
  match method r with
  | HTTP_GET => get_route (uri r)
  | HTTP_POST => post_route (uri r)
  | HTTP_OTHER => false
  end.

(** A response 404. *)
Definition is_404 (ev : Event) : bool :=
  match ev with EvSend code _ _ => code =? 404 | _ => false end.

(** The requests [onNotFound] answers with 404: the unrouted ones, outside
    the portal. *)
Definition answered_404 (req : option Request) (d : Device) : nat :=
  match req with
  | Some r => if configMode d then 0 else if routed r then 0 else 1
  | None => 0
  end.

(** ** The portal session *)

(** On line with no portal session left over: resolver stopped, access
    point down. *)
Definition online_clean (d : Device) : Prop :=
  online d /\ dns d = None /\ softap d = None.

Definition settled_clean (d : Device) : Prop :=
  prefs d = None /\ (online_clean d \/ portal d).

(** ** The list of networks of [handleScan] *)

(** [wifi_auth_mode_t], what [WiFi.encryptionType(i)] reports. *)
Inductive wifi_auth_mode_t :=
| WIFI_AUTH_OPEN
| WIFI_AUTH_WEP
| WIFI_AUTH_WPA_PSK
| WIFI_AUTH_WPA2_PSK
| WIFI_AUTH_WPA_WPA2_PSK
| WIFI_AUTH_WPA2_ENTERPRISE
| WIFI_AUTH_WPA3_PSK.

#[global] Instance wifi_auth_mode_eq_dec : EqDecision wifi_auth_mode_t.
Proof. solve_decision. Defined.

(** The result of [WiFi.scanNetworks()]: the number it returns (negative
    when the scan is running or has failed) and what [WiFi.SSID(i)],
    [WiFi.RSSI(i)] and [WiFi.encryptionType(i)] report for index [i]. *)
Record Scan := {
  scan_n : Z;
  scan_SSID : Z -> string;
  scan_RSSI : Z -> Z;
  scan_encryptionType : Z -> wifi_auth_mode_t
}.

(** The body of the [for] loop of [handleScan] for index [i]. *)
Definition scan_row (sc : Scan) (i : Z) (html : string) : string :=
  let ssid := scan_SSID sc i in
  let rssi := scan_RSSI sc i in
  let encryption :=
    if bool_decide (scan_encryptionType sc i = WIFI_AUTH_OPEN)
    then "Open" else "Secured" in
  let html := html +:+ ("<div class='network' onclick='selectNetwork("
                        +:+ dq +:+ ssid +:+ dq +:+ ")'>") in
  let html := html +:+ ("<div><strong>" +:+ ssid +:+ "</strong><br><small>"
                        +:+ encryption +:+ "</small></div>") in
  let html := html +:+ ("<div class='signal'>" +:+ String_of_int rssi
                        +:+ " dBm</div>") in
  html +:+ "</div>".

(** The part of [handleScan] between the scan and the buttons: the block
    [<div id='networks'>], appended to the page built so far.
    [for (int i = 0; i < n; ++i)] is a fold over the indices below [n]. *)
Definition scan_networks (sc : Scan) (html : string) : string :=
  let n := scan_n sc in
  let html := html +:+ "<div id='networks'>" in
  let html :=
    if n =? 0
    then html +:+ "<p style='text-align: center;'>No networks found</p>"
    else fold_left (fun html i => scan_row sc i html)
                   (map Z.of_nat (seq 0 (Z.to_nat n))) html in
  html +:+ "</div>".

(** One row of the list, as a text of its own. *)
Definition scan_row_text (sc : Scan) (i : Z) : string :=
  scan_row sc i EmptyString.

(** The rows of the networks found, one after the other. *)
Definition scan_rows (sc : Scan) : string :=
  fold_right (fun i rest => scan_row_text sc i +:+ rest) EmptyString
             (map Z.of_nat (seq 0 (Z.to_nat (scan_n sc)))).

(** A scan that found the two networks home (secured) and cafe (open),
    and a scan that failed. *)
Definition two_networks : Scan :=
  {| scan_n := 2;
     scan_SSID := fun i => if i =? 0 then "home" else "cafe";
     scan_RSSI := fun i => if i =? 0 then -40 else -71;
     scan_encryptionType :=
       fun i => if i =? 0 then WIFI_AUTH_WPA2_PSK else WIFI_AUTH_OPEN |}.

Definition failed_scan : Scan :=
  {| scan_n := -2;
     scan_SSID := fun _ => EmptyString;
     scan_RSSI := fun _ => 0;
     scan_encryptionType := fun _ => WIFI_AUTH_OPEN |}.

(** ** More worked instances *)

(** A radio whose link is up except at its third reading. *)
Definition air_blip : Env :=
  {| air := fun n => if (n =? 2)%nat then WL_CONNECTION_LOST else WL_CONNECTED;
     pin_level := fun _ => HIGH |}.

(** A flash with a second namespace beside the credential. *)
Definition shared_flash : gmap string (gmap string string) :=
  <["calib" := <["offset" := "12"]> ∅]> home_flash.

(** A request for a path without a handler. *)
Definition stray_request : Request :=
  {| method := HTTP_GET; uri := "/generate_204"; args := [] |}.

(** * Lemmas *)

(** ** The wait loop of [connectToWiFi] *)

Lemma elapsed_delay startTime ms d :
  elapsed startTime (delay ms d) = wrap32 (elapsed startTime d + ms).
Proof.
  unfold elapsed, delay, wrap32; cbn.
  rewrite Zminus_mod_idemp_l, Zplus_mod_idemp_l. f_equal. lia.
Qed.

Lemma wait_loop_step e startTime d :
  wait_loop e startTime d =
    if still_waiting (fst (WiFi.status e d)) startTime (snd (WiFi.status e d))
    then wait_loop e startTime (delay 500 (snd (WiFi.status e d)))
    else snd (WiFi.status e d).
Proof.
  funelim (wait_loop e startTime d).
  - rewrite Hw. reflexivity.
  - match goal with H : still_waiting _ _ _ = false |- _ => rewrite H end.
    reflexivity.
Qed.

Lemma wait_iter_S fuel e startTime d :
  wait_iter (S fuel) e startTime d =
    if still_waiting (fst (WiFi.status e d)) startTime (snd (WiFi.status e d))
    then match wait_iter fuel e startTime (delay 500 (snd (WiFi.status e d))) with
         | Some (k, d') => Some (S k, d')
         | None => None
         end
    else Some (O, snd (WiFi.status e d)).
Proof. cbn [wait_iter]. destruct (WiFi.status e d). reflexivity. Qed.

(** What the loop does, pass by pass, when the station interface is up:
    it makes [k] passes, at most one per 500 ms of the time left, takes
    one reading per test, and leaves at the first reading that says
    connected or at the deadline. *)
Lemma wait_loop_spec e startTime d :
  sta_enabled (wifi_mode d) = true ->
  exists k : nat,
    500 * Z.of_nat k <= Z.max 0 (WIFI_TIMEOUT - elapsed startTime d + 499) /\
    (forall extra, wait_iter (S k + extra) e startTime d
                   = Some (k, wait_loop e startTime d)) /\
    (forall j, (j < k)%nat -> air e (polls d + j) <> WL_CONNECTED) /\
    (air e (polls d + k) = WL_CONNECTED \/
     WIFI_TIMEOUT <= elapsed startTime d + 500 * Z.of_nat k) /\
    polls (wait_loop e startTime d) = (polls d + k + 1)%nat /\
    elapsed startTime (wait_loop e startTime d)
    = elapsed startTime d + 500 * Z.of_nat k /\
    sta_status (wait_loop e startTime d) = air e (polls d + k) /\
    same_but_radio d (wait_loop e startTime d).
Proof.
  funelim (wait_loop e startTime d); intros Hsta.
  - (* one more pass *)
    clear Heqcall.
    match goal with H : Logic.inspect _ = _ |- _ => clear H
                  | H : sigmaI _ _ _ = _ |- _ => clear H end.
    assert (Hst : WiFi.status e d
                  = (air e (polls d), set_polls (S (polls d))
                                        (set_sta_status (air e (polls d)) d)))
      by (unfold WiFi.status; rewrite Hsta; reflexivity).
    rewrite Hst in *. cbn [fst snd] in *.
    set (d1 := delay 500 _) in *.
    destruct H as (k & Hk & Hit & Hbefore & Hexit & Hpolls & Hmillis & Hstat & Hsame);
      [exact Hsta|].
    unfold still_waiting in Hw. apply andb_prop in Hw as [Hnc Hlt].
    apply negb_true_iff, bool_decide_eq_false in Hnc. apply Z.ltb_lt in Hlt.
    assert (Hel0 : elapsed startTime
                     (set_polls (S (polls d)) (set_sta_status (air e (polls d)) d))
                   = elapsed startTime d) by reflexivity.
    rewrite Hel0 in Hlt.
    assert (Hpos : 0 <= elapsed startTime d) by (apply Z.mod_pos_bound; lia).
    assert (Hel : elapsed startTime d1 = elapsed startTime d + 500).
    { unfold d1. rewrite elapsed_delay, Hel0. unfold wrap32.
      apply Z.mod_small. unfold WIFI_TIMEOUT in Hlt. lia. }
    rewrite Hel in *.
    assert (Hp1 : polls d1 = S (polls d)) by reflexivity.
    rewrite Hp1 in *.
    exists (S k).
    repeat split; try (destruct Hsame as (?&?&?&?&?&?&?&?&?); assumption).
    + lia.
    + intros extra. change (S (S k) + extra)%nat with (S (S k + extra)).
      rewrite wait_iter_S, Hst. cbn [fst snd].
      unfold still_waiting. rewrite Hel0.
      rewrite (bool_decide_eq_false_2 _ Hnc).
      rewrite (proj2 (Z.ltb_lt _ _) Hlt). cbn [negb andb].
      fold d1. rewrite (Hit extra). reflexivity.
    + intros j Hj. destruct j as [|j].
      * rewrite Nat.add_0_r. exact Hnc.
      * replace (polls d + S j)%nat with (S (polls d) + j)%nat by lia.
        apply Hbefore. lia.
    + replace (polls d + S k)%nat with (S (polls d) + k)%nat by lia.
      destruct Hexit as [Hc | Ht]; [left; exact Hc | right; lia].
    + rewrite Hpolls. lia.
    + rewrite Hmillis. lia.
    + rewrite Hstat. f_equal. lia.
  - (* the test fails: the loop is left *)
    clear Heqcall.
    match goal with H : Logic.inspect _ = _ |- _ => clear H
                  | H : sigmaI _ _ _ = _ |- _ => clear H end.
    assert (Hst : WiFi.status e d
                  = (air e (polls d), set_polls (S (polls d))
                                        (set_sta_status (air e (polls d)) d)))
      by (unfold WiFi.status; rewrite Hsta; reflexivity).
    match goal with H : still_waiting _ _ _ = false |- _ => rename H into Hw end.
    rewrite Hst in *. cbn [fst snd] in *.
    assert (Hpos : 0 <= elapsed startTime d) by (apply Z.mod_pos_bound; lia).
    exists O. repeat split; try reflexivity.
    + lia.
    + intros extra. change (1 + extra)%nat with (S extra).
      rewrite wait_iter_S, Hst. cbn [fst snd]. rewrite Hw. reflexivity.
    + intros j Hj. lia.
    + unfold still_waiting in Hw. apply andb_false_iff in Hw as [Hc | Ht].
      * left. apply negb_false_iff, bool_decide_eq_true in Hc.
        rewrite Nat.add_0_r. exact Hc.
      * right. apply Z.ltb_ge in Ht.
        change (elapsed startTime (set_polls _ _)) with (elapsed startTime d) in Ht.
        lia.
    + cbn. lia.
    + change (elapsed startTime (set_polls _ _)) with (elapsed startTime d). lia.
    + cbn. rewrite Nat.add_0_r. reflexivity.
Qed.

Lemma connectToWiFi_outcome e ssid' password' d :
  attempt_outcome ssid' password' d (connectToWiFi e ssid' password' d).
Proof.
  unfold connectToWiFi.
  set (d0 := WiFi.begin_ ssid' password' (WiFi.mode WIFI_STA d)).
  destruct (wait_loop_spec e (millis d0) d0 eq_refl)
    as (k & _ & _ & _ & _ & _ & _ & _ & Hsame).
  destruct Hsame as (Hn & Hp & Hs & Hpw & Hc & Hm & Hap & Hdns & Htr).
  change (millis d0) with (millis d) in *.
  unfold WiFi.status. rewrite Hm. cbn [d0 WiFi.begin_ WiFi.mode wifi_mode
    set_trace set_wifi_mode sta_enabled].
  destruct (bool_decide _) eqn:Hok; cbn.
  - apply bool_decide_eq_true in Hok.
    rewrite Hn, Hp, Hs, Hpw, Hm, Hap, Hdns, Htr. repeat split. exact Hok.
  - rewrite Hn, Hp, Hs, Hpw, Hc, Hm, Hap, Hdns, Htr. repeat split.
Qed.

Lemma startConfigPortal_portal d : portal (startConfigPortal d).
Proof. repeat split. Qed.

Lemma loadCredentials_frame d :
  prefs d = None ->
  let d' := loadCredentials d in
  nvs d' = nvs d /\ prefs d' = None /\
  ssid d' = default EmptyString (Preferences.stored "wifi" "ssid" d) /\
  password d' = default EmptyString (Preferences.stored "wifi" "password" d) /\
  configMode d' = configMode d /\ wifi_mode d' = wifi_mode d /\
  sta_status d' = sta_status d /\ polls d' = polls d /\
  softap d' = softap d /\ dns d' = dns d /\ millis d' = millis d /\
  trace d' = trace d.
Proof.
  intros Hp. unfold loadCredentials, Preferences.begin_, Preferences.getString.
  rewrite Hp. cbn. repeat split.
Qed.

(** [setup()] ends on line or in the portal. *)
Lemma setup_settled e d : prefs d = None -> settled (setup e d).
Proof.
  intros Hp. unfold setup, initializeGPIO.
  set (d1 := loadCredentials (delay 1000 d)).
  destruct (loadCredentials_frame (delay 1000 d) Hp)
    as (_ & Hp1 & _). fold d1 in Hp1.
  destruct (0 <? String.length (ssid d1))%nat.
  - pose proof (connectToWiFi_outcome e (c_str (ssid d1)) (c_str (password d1)) d1) as Ho.
    destruct (connectToWiFi e _ _ d1) as [ok d2].
    destruct Ho as (_ & Hp2 & _ & _ & _ & _ & Hm & _ & Hok).
    destruct ok; cbn [negb].
    + split; [congruence|]. left. destruct Hok. repeat split; assumption.
    + split; [cbn; congruence|]. right. apply startConfigPortal_portal.
  - split; [cbn; congruence|]. right. apply startConfigPortal_portal.
Qed.

(** ** The storage functions *)

Lemma saveCredentials_frame newSSID newPassword d :
  prefs d = None ->
  let d' := saveCredentials newSSID newPassword d in
  prefs d' = None /\ ssid d' = newSSID /\ password d' = newPassword /\
  configMode d' = configMode d /\ wifi_mode d' = wifi_mode d /\
  sta_status d' = sta_status d /\ polls d' = polls d /\
  softap d' = softap d /\ dns d' = dns d /\ millis d' = millis d /\
  trace d' = trace d.
Proof.
  intros Hp. unfold saveCredentials, Preferences.begin_. rewrite Hp.
  unfold Preferences.putString. cbn [prefs set_prefs].
  destruct (_ <=? _)%nat; cbn [prefs set_prefs set_nvs];
    destruct (_ <=? _)%nat; repeat split.
Qed.

Lemma put_lookup (m : gmap string (gmap string string)) (ns k k' v : string) :
  <[ns := <[k := v]> (default ∅ (m !! ns))]> m !! ns ≫= (.!! k')
  = if decide (k = k') then Some v else m !! ns ≫= (.!! k').
Proof.
  rewrite lookup_insert_eq. cbn. rewrite lookup_insert.
  case_decide; [reflexivity|]. destruct (m !! ns); reflexivity.
Qed.

(** With a closed handle and values that fit, [saveCredentials] leaves
    exactly the two C strings under the namespace. *)
Lemma saveCredentials_stored newSSID newPassword d :
  prefs d = None ->
  (String.length (c_str newSSID) <= NVS_STR_MAX)%nat ->
  (String.length (c_str newPassword) <= NVS_STR_MAX)%nat ->
  let d' := saveCredentials newSSID newPassword d in
  Preferences.stored "wifi" "ssid" d' = Some (c_str newSSID) /\
  Preferences.stored "wifi" "password" d' = Some (c_str newPassword).
Proof.
  intros Hp Hn Hpw. unfold saveCredentials, Preferences.begin_. rewrite Hp.
  unfold Preferences.putString. cbn [prefs set_prefs].
  rewrite (proj2 (Nat.leb_le _ _) Hn). cbn [prefs set_prefs set_nvs].
  rewrite (proj2 (Nat.leb_le _ _) Hpw).
  unfold Preferences.stored. cbn [nvs set_nvs Preferences.end_ set_prefs
    set_ssid set_password].
  rewrite !put_lookup. split; reflexivity.
Qed.

(** ** The handlers *)

Lemma handleConnect_settled e r d : prefs d = None -> settled (handleConnect e r d).
Proof.
  intros Hp. unfold handleConnect.
  set (n := Server.arg "ssid" r). set (p := Server.arg "password" r).
  set (d1 := delay 1000 (Server.send 200 "text/html" (Html (PageConnect n)) d)).
  destruct (saveCredentials_frame n p d1 Hp) as (Hp2 & _).
  set (d2 := WiFi.softAPdisconnect true (DNSServer.stop (saveCredentials n p d1))).
  assert (Hp3 : prefs d2 = None).
  { unfold d2, WiFi.softAPdisconnect, DNSServer.stop. cbn. exact Hp2. }
  pose proof (connectToWiFi_outcome e (c_str n) (c_str p) d2) as Ho.
  destruct (connectToWiFi e _ _ d2) as [ok d3].
  destruct Ho as (_ & Hp4 & _ & _ & _ & _ & Hm & _ & Hok).
  destruct ok.
  - destruct Hok as [_ Hst]. split; [cbn; congruence|]. left.
    repeat split; assumption.
  - split; [cbn; congruence|]. right. apply startConfigPortal_portal.
Qed.

(** [handleReset()]: the namespace is erased, the chip restarts, finds no
    credential and opens the portal, without a station attempt. *)
Lemma handleReset_spec e d :
  prefs d = None ->
  let d' := handleReset e d in
  nvs d' = delete "wifi" (nvs d) /\ prefs d' = None /\
  ssid d' = EmptyString /\ password d' = EmptyString /\
  polls d' = polls d /\ portal d' /\
  trace d' = EvRestart :: EvSend 200 "text/html" (Html PageReset) :: trace d.
Proof.
  intros Hp. unfold handleReset, Preferences.begin_. cbn [Server.send prefs set_trace].
  rewrite Hp. unfold Preferences.clear. cbn [prefs set_prefs].
  unfold ESP_restart, setup, initializeGPIO, loadCredentials,
    Preferences.begin_, Preferences.getString, Preferences.stored.
  cbn [prefs nvs set_prefs set_nvs set_ssid set_password set_trace set_polls
       power_on delay set_millis Preferences.end_ ssid].
  rewrite lookup_delete_eq. cbn. repeat split.
Qed.

(** A request that is neither a submission nor a reset sends one page at
    most and changes nothing else. *)
Lemma handleClient_other e req d :
  is_submission req = false -> is_reset req = false ->
  exists evs, handleClient e req d = Running (set_trace (evs ++ trace d) d) /\
              Forall (fun ev => is_begin ev = false) evs.
Proof.
  intros Hs Hr. destruct req as [r|]; cbn [handleClient].
  2:{ exists []. destruct d; split; [reflexivity | constructor]. }
  cbn in Hs, Hr. destruct (method r); cbn in Hs, Hr.
  - repeat match goal with |- context [String.eqb ?a ?b] => destruct (String.eqb a b) end;
      try destruct (configMode d);
      eexists [_]; (split; [reflexivity | repeat constructor]).
  - change (bool_decide (HTTP_POST = HTTP_POST)) with true in Hs, Hr.
    cbn [andb] in Hs, Hr. rewrite Hs, Hr. destruct (configMode d);
      eexists [_]; (split; [reflexivity | repeat constructor]).
  - destruct (configMode d);
      eexists [_]; (split; [reflexivity | repeat constructor]).
Qed.

Lemma handleClient_submission e req d :
  is_submission req = true ->
  exists r, req = Some r /\ handleClient e req d = Running (handleConnect e r d).
Proof.
  destruct req as [r|]; [|discriminate]. cbn. intros H.
  apply andb_prop in H as [Hm Hu]. apply bool_decide_eq_true in Hm.
  exists r. rewrite Hm, Hu. split; reflexivity.
Qed.

Lemma handleClient_reset e req d :
  is_reset req = true -> handleClient e req d = Restarted (handleReset e d).
Proof.
  destruct req as [r|]; [|discriminate]. cbn. intros H.
  apply andb_prop in H as [Hm Hu]. apply bool_decide_eq_true in Hm.
  rewrite Hm, Hu.
  destruct (String.eqb (uri r) "/connect") eqn:Hc; [|reflexivity].
  apply String.eqb_eq in Hc, Hu. rewrite Hc in Hu. discriminate.
Qed.

(** ** One pass of [loop()] *)

(** A servicing pass of the resolver only adds its reply to the record. *)
Lemma processNextRequest_quiet q d :
  exists evs, DNSServer.processNextRequest q d = set_trace (evs ++ trace d) d /\
              Forall (fun ev => is_begin ev = false) evs.
Proof.
  unfold DNSServer.processNextRequest.
  destruct (dns d) as [srv|], q as [name|];
    try (exists []; destruct d; split; [reflexivity | constructor]).
  destruct (_ || _); eexists [_]; (split; [reflexivity | repeat constructor]).
Qed.

Lemma settled_set_trace tr d : settled d -> settled (set_trace tr d).
Proof. intros H. exact H. Qed.

Lemma settled_delay ms d : settled d -> settled (delay ms d).
Proof. intros H. exact H. Qed.

Lemma check_link_portal e d : configMode d = true -> check_link e d = d.
Proof. intros H. unfold check_link. rewrite H. reflexivity. Qed.

Lemma check_link_settled e d : settled d -> settled (check_link e d).
Proof.
  intros [Hp Hm]. unfold check_link.
  destruct (configMode d) eqn:Hc; [split; assumption|].
  destruct Hm as [(_ & Hmode & _) | (Hc' & _)]; [|congruence].
  unfold WiFi.status. rewrite Hmode. cbn [sta_enabled].
  destruct (bool_decide _) eqn:Hst.
  - apply bool_decide_eq_true in Hst. split; [exact Hp|]. left.
    repeat split; assumption.
  - set (d1 := set_polls _ _).
    pose proof (connectToWiFi_outcome e (c_str (ssid d1)) (c_str (password d1)) d1) as Ho.
    destruct (connectToWiFi e _ _ d1) as [ok d2].
    destruct Ho as (_ & Hp2 & _ & _ & _ & _ & Hm2 & _ & Hok).
    assert (Hp1 : prefs d1 = None) by exact Hp.
    destruct ok; cbn [negb].
    + destruct Hok. split; [congruence|]. left. repeat split; assumption.
    + split; [cbn; congruence|]. right. apply startConfigPortal_portal.
Qed.

Lemma loop_settled e t d : settled d -> settled (loop e t d).
Proof.
  intros Hs. unfold loop.
  set (d0 := if configMode d then _ else d).
  assert (Hs0 : settled d0).
  { unfold d0. destruct (configMode d); [|exact Hs].
    destruct (processNextRequest_quiet (dns_query t) d) as (evs & -> & _).
    exact Hs. }
  destruct (is_submission (http t)) eqn:Hsub.
  - destruct (handleClient_submission e _ d0 Hsub) as (r & _ & ->).
    apply settled_delay, check_link_settled, handleConnect_settled, Hs0.
  - destruct (is_reset (http t)) eqn:Hres.
    + rewrite (handleClient_reset e _ d0 Hres).
      destruct (handleReset_spec e d0 (proj1 Hs0)) as (_ & Hp & _ & _ & _ & Hpo & _).
      split; [exact Hp | right; exact Hpo].
    + destruct (handleClient_other e _ d0 Hsub Hres) as (evs & -> & _).
      apply settled_delay, check_link_settled, settled_set_trace, Hs0.
Qed.

Lemma power_on_closed flash : prefs (power_on flash) = None.
Proof. reflexivity. Qed.

Lemma boot_settled e flash : settled (boot e flash).
Proof. apply setup_settled, power_on_closed. Qed.

Lemma run_settled e ticks : forall d, settled d -> settled (run e ticks d).
Proof.
  induction ticks as [|t ticks IH]; intros d Hs; [exact Hs|].
  cbn [run fold_left]. apply IH, loop_settled, Hs.
Qed.

(** The two resting states told apart by the modes. *)
Lemma online_modes d :
  online d -> in_mode Connected d /\ ~ in_mode PortalActive d /\
              ~ in_mode Uninitialized d /\ ~ in_mode Connecting d.
Proof.
  intros (Hc & Hm & Hst). cbn [in_mode]. rewrite Hc, Hm, Hst.
  repeat split; try discriminate. intros [_ H]. apply H. reflexivity.
Qed.

Lemma portal_modes d :
  portal d -> in_mode PortalActive d /\ ~ in_mode Connected d /\
              ~ in_mode Uninitialized d /\ ~ in_mode Connecting d.
Proof.
  intros (Hc & Hm & Hst & _). cbn [in_mode]. rewrite Hc, Hm, Hst.
  repeat split; try discriminate; intros [H _]; discriminate.
Qed.

Lemma settled_one_mode d :
  settled d ->
  in_mode (current_mode d) d /\
  (forall m, in_mode m d -> m = current_mode d) /\
  (current_mode d = Connected \/ current_mode d = PortalActive).
Proof.
  intros [_ [Ho | Hpo]].
  - destruct (online_modes d Ho) as (H1 & H2 & H3 & H4).
    destruct Ho as (Hc & Hm & Hst).
    assert (Hcm : current_mode d = Connected).
    { unfold current_mode. rewrite Hc, Hst. reflexivity. }
    rewrite Hcm. split; [exact H1|]. split; [|left; reflexivity].
    intros [] Hin; try reflexivity; contradiction.
  - destruct (portal_modes d Hpo) as (H1 & H2 & H3 & H4).
    destruct Hpo as (Hc & _).
    assert (Hcm : current_mode d = PortalActive).
    { unfold current_mode. rewrite Hc. reflexivity. }
    rewrite Hcm. split; [exact H1|]. split; [|right; reflexivity].
    intros [] Hin; try reflexivity; contradiction.
Qed.

(** * Worked runs *)

(** The stored credential works: the device ends connected and the store
    is as it was. *)
Example stored_credential_connects :
  current_mode (boot air_up home_flash) = Connected /\
  Preferences.stored "wifi" "ssid" (boot air_up home_flash) = Some "home" /\
  Preferences.stored "wifi" "password" (boot air_up home_flash)
  = Some "secret123".
Proof. repeat split. Qed.

(** The stored credential times out after twenty passes of 500 ms and the
    portal opens; a submission that then succeeds ends connected, with the
    new credential in the store. *)
Example timeout_then_submission :
  current_mode (boot air_late home_flash) = PortalActive /\
  polls (boot air_late home_flash) = 22%nat /\
  millis (boot air_late home_flash) = 1000 + 20 * 500 + 100 + 500 /\
  current_mode (loop air_late {| dns_query := None; http := Some office_request |}
                  (boot air_late home_flash)) = Connected /\
  Preferences.stored "wifi" "ssid"
    (loop air_late {| dns_query := None; http := Some office_request |}
       (boot air_late home_flash)) = Some "office".
Proof. repeat split. Qed.

(** The text of the endpoint when pin 3 is low. *)
Example gpio_json_pin3_low :
  gpio_json air_late
  = "{" +:+ dq +:+ "pins" +:+ dq +:+ ":["
    +:+ "{" +:+ dq +:+ "gpio" +:+ dq +:+ ":0," +:+ dq +:+ "state" +:+ dq +:+ ":"
        +:+ dq +:+ "HIGH" +:+ dq +:+ "},"
    +:+ "{" +:+ dq +:+ "gpio" +:+ dq +:+ ":1," +:+ dq +:+ "state" +:+ dq +:+ ":"
        +:+ dq +:+ "HIGH" +:+ dq +:+ "},"
    +:+ "{" +:+ dq +:+ "gpio" +:+ dq +:+ ":3," +:+ dq +:+ "state" +:+ dq +:+ ":"
        +:+ dq +:+ "LOW" +:+ dq +:+ "},"
    +:+ "{" +:+ dq +:+ "gpio" +:+ dq +:+ ":4," +:+ dq +:+ "state" +:+ dq +:+ ":"
        +:+ dq +:+ "HIGH" +:+ dq +:+ "},"
    +:+ "{" +:+ dq +:+ "gpio" +:+ dq +:+ ":5," +:+ dq +:+ "state" +:+ dq +:+ ":"
        +:+ dq +:+ "HIGH" +:+ dq +:+ "}]}".
Proof. reflexivity. Qed.

(** The reader refuses texts that are not JSON. *)
Example reader_refuses_trailing_comma :
  JsonReader.read "[1,2,]" = None /\ JsonReader.read "{" = None /\
  JsonReader.read "[1 2]" = None /\ JsonReader.read "[01]" = None /\
  JsonReader.read "[1] x" = None.
Proof. repeat split. Qed.

Example reader_accepts_integers :
  JsonReader.read " [ -12 , 0 , true , null ] "
  = Some (JArray [JNumber (-12); JNumber 0; JBool true; JNull]).
Proof. reflexivity. Qed.

(** * Properties *)

(** ** C3: the mode invariant *)

(** C3.  At power-on the device is in [Uninitialized] and in no other mode.
    After [setup()] and after every pass of [loop()], whatever the radio
    reports and whatever requests arrive, the device is in exactly one
    mode, the one [current_mode] computes, and that mode is [Connected] or
    [PortalActive]; the two never hold together.  The two operations that
    move between them keep them apart: [startConfigPortal] sets the portal
    flag and drops the station link, and a successful [connectToWiFi]
    leaves the link up with the flag cleared. *)
Theorem mode_invariant (e : Env) (flash : gmap string (gmap string string))
    (ticks : list Tick) :
  let d := run e ticks (boot e flash) in
  (forall m, in_mode m (power_on flash) <-> m = Uninitialized) /\
  in_mode (current_mode d) d /\
  (forall m, in_mode m d -> m = current_mode d) /\
  ~ (in_mode Connected d /\ in_mode PortalActive d) /\
  (forall d0, in_mode PortalActive (startConfigPortal d0) /\
              ~ in_mode Connected (startConfigPortal d0)) /\
  (forall ssid' password' d0,
     let (ok, d') := connectToWiFi e ssid' password' d0 in
     if ok then in_mode Connected d' /\ ~ in_mode PortalActive d'
     else ~ in_mode Connected d').
Proof.
  intros d.
  pose proof (run_settled e ticks _ (boot_settled e flash)) as Hs. fold d in Hs.
  destruct (settled_one_mode d Hs) as (Hin & Huniq & Hcases).
  split; [|split; [exact Hin|split; [exact Huniq|split; [|split]]]].
  - intros m. split.
    + destruct m; cbn; try reflexivity; intros H; try discriminate;
        destruct H; discriminate.
    + intros ->. reflexivity.
  - intros [Hc Hp]. apply Huniq in Hc, Hp. congruence.
  - intros d0. destruct (portal_modes _ (startConfigPortal_portal d0)) as (H1 & H2 & _).
    split; assumption.
  - intros ssid' password' d0.
    pose proof (connectToWiFi_outcome e ssid' password' d0) as Ho.
    destruct (connectToWiFi e ssid' password' d0) as [ok d'].
    destruct Ho as (_ & _ & _ & _ & _ & _ & Hm & _ & Hok).
    cbn [in_mode]. rewrite Hm. destruct ok.
    + destruct Hok as [Hc Hst]. rewrite Hc, Hst.
      repeat split. discriminate.
    + destruct Hok as [_ Hst]. rewrite Hst. intros [_ H]. discriminate.
Qed.

(** ** C9: a station attempt is bounded *)

(** C9.  For every sequence of status readings, the wait loop of
    [connectToWiFi] makes some number [k] of passes with [k <= 20]: the
    loop written with a bound on its tests returns after [k] passes as
    soon as the bound exceeds [k], and agrees with [wait_loop].  Each pass
    waits 500 ms; a pass is made only after a reading other than
    [WL_CONNECTED]; the loop is left at the first reading [WL_CONNECTED] or
    when the time waited has reached [WIFI_TIMEOUT].  [connectToWiFi]
    returns after [k + 2] readings and [500 * k <= WIFI_TIMEOUT] ms, with
    the result its last reading gives. *)
Theorem connectToWiFi_terminates (e : Env) (ssid' password' : string) (d : Device) :
  let d0 := WiFi.begin_ ssid' password' (WiFi.mode WIFI_STA d) in
  exists k : nat,
    (k <= 20)%nat /\
    (forall extra, wait_iter (S k + extra) e (millis d) d0
                   = Some (k, wait_loop e (millis d) d0)) /\
    (forall j, (j < k)%nat -> air e (polls d + j) <> WL_CONNECTED) /\
    (air e (polls d + k) = WL_CONNECTED \/ WIFI_TIMEOUT <= 500 * Z.of_nat k) /\
    500 * Z.of_nat k <= WIFI_TIMEOUT /\
    elapsed (millis d) (snd (connectToWiFi e ssid' password' d))
    = 500 * Z.of_nat k /\
    polls (snd (connectToWiFi e ssid' password' d)) = (polls d + k + 2)%nat /\
    fst (connectToWiFi e ssid' password' d)
    = bool_decide (air e (polls d + k + 1) = WL_CONNECTED).
Proof.
  intros d0.
  destruct (wait_loop_spec e (millis d0) d0 eq_refl)
    as (k & Hk & Hit & Hbefore & Hexit & Hpolls & Hel & _ & Hsame).
  change (millis d0) with (millis d) in *.
  change (polls d0) with (polls d) in *.
  assert (Hz : elapsed (millis d) d0 = 0).
  { unfold elapsed, d0. cbn. rewrite Z.sub_diag. reflexivity. }
  rewrite Hz in *.
  assert (Hk20 : (k <= 20)%nat) by (unfold WIFI_TIMEOUT in Hk; lia).
  destruct Hsame as (_ & _ & _ & _ & _ & Hm & _).
  assert (Hst : WiFi.status e (wait_loop e (millis d) d0)
                = (air e (polls d + k + 1),
                   set_polls (S (polls d + k + 1))
                     (set_sta_status (air e (polls d + k + 1))
                        (wait_loop e (millis d) d0)))).
  { unfold WiFi.status. rewrite Hm, Hpolls. reflexivity. }
  exists k. split; [exact Hk20|]. split; [exact Hit|]. split; [exact Hbefore|].
  split; [destruct Hexit; [left|right]; [assumption|lia]|].
  split; [unfold WIFI_TIMEOUT; lia|].
  unfold connectToWiFi. fold d0. change (millis d0) with (millis d).
  rewrite Hst. destruct (bool_decide _); cbn [fst snd].
  - split; [|split; [cbn; lia | reflexivity]].
    change (elapsed (millis d) (set_configMode _ (set_polls _ (set_sta_status _ ?x))))
      with (elapsed (millis d) x). lia.
  - split; [|split; [cbn; lia | reflexivity]].
    change (elapsed (millis d) (WiFi.disconnect (set_polls _ (set_sta_status _ ?x))))
      with (elapsed (millis d) x). lia.
Qed.

(** ** C4: boot without a stored credential *)

(** C4.  When the name loaded from the store at boot is empty, [setup()]
    goes from the power-on state, which is [Uninitialized], straight to
    [startConfigPortal]: the device ends in [PortalActive], no
    [WiFi.begin] and no other event was issued, and the radio's status was
    never read. *)
Theorem boot_without_credential (e : Env) (flash : gmap string (gmap string string)) :
  ssid (loadCredentials (power_on flash)) = EmptyString ->
  let d := boot e flash in
  current_mode (power_on flash) = Uninitialized /\
  d = startConfigPortal (loadCredentials (delay 1000 (power_on flash))) /\
  current_mode d = PortalActive /\ in_mode PortalActive d /\
  ~ in_mode Connecting d /\
  trace d = [] /\ polls d = 0%nat.
Proof.
  intros Hempty d.
  assert (Hd : d = startConfigPortal (loadCredentials (delay 1000 (power_on flash)))).
  { unfold d, boot, setup, initializeGPIO.
    change (ssid (loadCredentials (delay 1000 (power_on flash))))
      with (ssid (loadCredentials (power_on flash))).
    rewrite Hempty. reflexivity. }
  split; [reflexivity|]. split; [exact Hd|].
  rewrite Hd. repeat split. intros [H _]. discriminate.
Qed.

Lemma boot_without_credential_witness :
  ssid (loadCredentials (power_on ∅)) = EmptyString /\
  trace (boot air_up ∅) = [].
Proof.
  split; [reflexivity|].
  apply (boot_without_credential air_up ∅). reflexivity.
Defined.

(** ** C5: reset *)

(** C5.  Handling a reset request, from any state with no storage handle
    open, erases the stored credential, so that there is no stored name
    and no stored secret and [loadCredentials] afterwards yields the empty
    name and the empty secret; then the chip restarts, which is [setup()]
    run from the power-on state over the erased flash, and the device comes
    up in [PortalActive] without a station attempt. *)
Theorem handleReset_clears_and_restarts (e : Env) (d : Device) :
  prefs d = None ->
  let d' := handleReset e d in
  Preferences.stored "wifi" "ssid" d' = None /\
  Preferences.stored "wifi" "password" d' = None /\
  ssid (loadCredentials d') = EmptyString /\
  password (loadCredentials d') = EmptyString /\
  d' = setup e (set_trace (EvRestart :: EvSend 200 "text/html" (Html PageReset)
                             :: trace d)
                  (set_polls (polls d) (power_on (delete "wifi" (nvs d))))) /\
  trace d' = EvRestart :: EvSend 200 "text/html" (Html PageReset) :: trace d /\
  current_mode d' = PortalActive /\ in_mode PortalActive d'.
Proof.
  intros Hp d'.
  destruct (handleReset_spec e d Hp) as (Hn & Hp' & Hs & Hpw & Hpo & Hportal & Htr).
  fold d' in Hn, Hp', Hs, Hpw, Hpo, Hportal, Htr.
  assert (Hst : forall key, Preferences.stored "wifi" key d' = None).
  { intros key. unfold Preferences.stored. rewrite Hn, lookup_delete_eq. reflexivity. }
  destruct (loadCredentials_frame d' Hp') as (_ & _ & Hls & Hlp & _).
  rewrite !Hst in *. cbn [default] in *.
  repeat split; try assumption; try apply Hst.
  - unfold d', handleReset, Preferences.begin_. cbn [Server.send prefs set_trace].
    rewrite Hp. reflexivity.
  - unfold current_mode. destruct Hportal as (-> & _). reflexivity.
  - destruct Hportal as (Hc & _). exact Hc.
Qed.

Lemma handleReset_clears_and_restarts_witness :
  prefs (boot air_up home_flash) = None /\
  current_mode (boot air_up home_flash) = Connected /\
  current_mode (handleReset air_up (boot air_up home_flash)) = PortalActive.
Proof.
  split; [reflexivity|]. split; [reflexivity|].
  apply (handleReset_clears_and_restarts air_up (boot air_up home_flash)).
  reflexivity.
Defined.

(** ** C6: no spontaneous re-attempt in the portal *)

Lemma putString_trace key value d :
  trace (Preferences.putString key value d) = trace d.
Proof.
  unfold Preferences.putString.
  destruct (prefs d) as [[ns []]|]; try reflexivity.
  destruct (_ <=? _)%nat; reflexivity.
Qed.

Lemma begin_trace name ro d : trace (Preferences.begin_ name ro d) = trace d.
Proof. unfold Preferences.begin_. destruct (prefs d); reflexivity. Qed.

Lemma saveCredentials_trace newSSID newPassword d :
  trace (saveCredentials newSSID newPassword d) = trace d.
Proof.
  unfold saveCredentials.
  cbn [trace set_password set_ssid Preferences.end_ set_prefs].
  rewrite !putString_trace. apply begin_trace.
Qed.

(** C6.  Take a pass of [loop()] in the portal (flag set, no storage handle
    open) in which the pending request, if any, is not a submission
    (POST /connect).  Then the pass issues no [WiFi.begin], does not read
    the radio's status, and ends with the flag still set; this holds also
    for a reset request, after which the restarted chip is back in the
    portal.  Hence a pass that ends outside the portal was given a
    submission. *)
Theorem portal_never_reattempts (e : Env) (t : Tick) (d : Device) :
  configMode d = true -> prefs d = None ->
  let d' := loop e t d in
  (is_submission (http t) = false ->
     configMode d' = true /\ polls d' = polls d /\
     exists evs, trace d' = evs ++ trace d /\
                 Forall (fun ev => is_begin ev = false) evs) /\
  (configMode d' = false ->
     is_submission (http t) = true \/ is_reset (http t) = true).
Proof.
  intros Hc Hp d'.
  assert (Hmain : is_submission (http t) = false ->
     configMode d' = true /\ polls d' = polls d /\
     exists evs, trace d' = evs ++ trace d /\
                 Forall (fun ev => is_begin ev = false) evs).
  { intros Hsub. unfold d', loop. rewrite Hc.
    destruct (processNextRequest_quiet (dns_query t) d) as (evs0 & -> & Hev0).
    set (d0 := set_trace (evs0 ++ trace d) d).
    destruct (is_reset (http t)) eqn:Hres.
    - rewrite (handleClient_reset e _ d0 Hres).
      destruct (handleReset_spec e d0 Hp) as (_ & _ & _ & _ & Hpo & (Hcm & _) & Htr).
      split; [exact Hcm|]. split; [exact Hpo|].
      exists (EvRestart :: EvSend 200 "text/html" (Html PageReset) :: evs0).
      split; [rewrite Htr; reflexivity|].
      repeat constructor. exact Hev0.
    - destruct (handleClient_other e _ d0 Hsub Hres) as (evs1 & -> & Hev1).
      rewrite check_link_portal by exact Hc.
      split; [exact Hc|]. split; [reflexivity|].
      exists (evs1 ++ evs0). split; [cbn; apply app_assoc|].
      apply Forall_app. split; assumption. }
  split; [exact Hmain|].
  intros Hout. destruct (is_submission (http t)); [left; reflexivity|].
  destruct (Hmain eq_refl) as (Hin & _). congruence.
Qed.

Lemma portal_never_reattempts_witness :
  configMode (boot air_down home_flash) = true /\
  prefs (boot air_down home_flash) = None /\
  configMode (loop air_down {| dns_query := Some "example.org"; http := None |}
                (boot air_down home_flash)) = true.
Proof.
  split; [reflexivity|]. split; [reflexivity|].
  apply (portal_never_reattempts air_down
           {| dns_query := Some "example.org"; http := None |}
           (boot air_down home_flash)); reflexivity.
Defined.

(** ** C7: the round trip of the credential store *)

(** C7.  For every name of at most 32 bytes and secret of at most 64
    bytes, both without NUL, saved by [saveCredentials] from any state
    with no storage handle open: [loadCredentials] run on any state over
    the flash the save left (the state the save returned, or the power-on
    state after a restart, whose [ssid] and [password] are empty) reads
    exactly that name and that secret from the store into [ssid] and
    [password]. *)
Theorem credentials_roundtrip (name secret : string) (d d2 : Device) :
  prefs d = None ->
  is_c_string name -> is_c_string secret ->
  (String.length name <= SSID_MAX)%nat ->
  (String.length secret <= SECRET_MAX)%nat ->
  prefs d2 = None -> nvs d2 = nvs (saveCredentials name secret d) ->
  let d' := loadCredentials (saveCredentials name secret d) in
  ssid (loadCredentials d2) = name /\ password (loadCredentials d2) = secret /\
  ssid d' = name /\ password d' = secret /\
  Preferences.getString "ssid" EmptyString
    (Preferences.begin_ "wifi" false (saveCredentials name secret d)) = name /\
  Preferences.getString "password" EmptyString
    (Preferences.begin_ "wifi" false (saveCredentials name secret d)) = secret.
Proof.
  intros Hp Hn Hs Hln Hls Hp2 Hnvs d'.
  destruct (saveCredentials_frame name secret d Hp) as (Hp1 & _).
  destruct (saveCredentials_stored name secret d Hp) as (Hsn & Hss).
  { rewrite Hn. unfold SSID_MAX, NVS_STR_MAX in *. lia. }
  { rewrite Hs. unfold SECRET_MAX, NVS_STR_MAX in *. lia. }
  rewrite Hn in Hsn. rewrite Hs in Hss.
  destruct (loadCredentials_frame _ Hp1) as (_ & _ & Hl1 & Hl2 & _).
  fold d' in Hl1, Hl2. rewrite Hsn in Hl1. rewrite Hss in Hl2.
  destruct (loadCredentials_frame d2 Hp2) as (_ & _ & Hr1 & Hr2 & _).
  unfold Preferences.stored in Hr1, Hr2. rewrite Hnvs in Hr1, Hr2.
  unfold Preferences.stored in Hsn, Hss. rewrite Hsn in Hr1. rewrite Hss in Hr2.
  split; [exact Hr1|]. split; [exact Hr2|].
  split; [exact Hl1|]. split; [exact Hl2|].
  unfold Preferences.getString, Preferences.begin_. rewrite Hp1.
  cbn [prefs set_prefs].
  change (Preferences.stored "wifi" ?k (set_prefs _ ?x))
    with (Preferences.stored "wifi" k x).
  unfold Preferences.stored. rewrite Hsn, Hss. split; reflexivity.
Qed.

Lemma credentials_roundtrip_witness :
  prefs (power_on ∅) = None /\ is_c_string "home" /\ is_c_string "secret123" /\
  ssid (power_on (nvs (saveCredentials "home" "secret123" (power_on ∅))))
  = EmptyString /\
  ssid (loadCredentials
          (power_on (nvs (saveCredentials "home" "secret123" (power_on ∅)))))
  = "home".
Proof.
  split; [reflexivity|]. split; [reflexivity|]. split; [reflexivity|].
  split; [reflexivity|].
  assert (Hn : (String.length "home" <= SSID_MAX)%nat) by (vm_compute; lia).
  assert (Hs : (String.length "secret123" <= SECRET_MAX)%nat) by (vm_compute; lia).
  exact (proj1 (credentials_roundtrip "home" "secret123" (power_on ∅)
                  (power_on (nvs (saveCredentials "home" "secret123" (power_on ∅))))
                  eq_refl eq_refl eq_refl Hn Hs eq_refl eq_refl)).
Defined.

(** ** C2: when a submitted identity is persisted *)

Lemma handleConnect_trace e r d :
  trace (handleConnect e r d)
  = EvBegin (c_str (Server.arg "ssid" r)) (c_str (Server.arg "password" r))
      :: EvSend 200 "text/html" (Html (PageConnect (Server.arg "ssid" r)))
      :: trace d.
Proof.
  unfold handleConnect.
  set (n := Server.arg "ssid" r). set (p := Server.arg "password" r).
  set (d2 := WiFi.softAPdisconnect true _).
  assert (Ht : trace d2 = EvSend 200 "text/html" (Html (PageConnect n)) :: trace d).
  { unfold d2, WiFi.softAPdisconnect, DNSServer.stop.
    cbn [trace set_wifi_mode set_softap set_dns].
    rewrite saveCredentials_trace. reflexivity. }
  pose proof (connectToWiFi_outcome e (c_str n) (c_str p) d2) as Ho.
  destruct (connectToWiFi e _ _ d2) as [ok d3].
  destruct Ho as (_ & _ & _ & _ & _ & _ & _ & Htr & _).
  rewrite Ht in Htr. destruct ok; exact Htr.
Qed.

Lemma handleConnect_store e r d :
  let d1 := delay 1000 (Server.send 200 "text/html"
                          (Html (PageConnect (Server.arg "ssid" r))) d) in
  nvs (handleConnect e r d)
  = nvs (saveCredentials (Server.arg "ssid" r) (Server.arg "password" r) d1) /\
  ssid (handleConnect e r d) = Server.arg "ssid" r /\
  password (handleConnect e r d) = Server.arg "password" r.
Proof.
  intros d1. unfold handleConnect. fold d1.
  set (n := Server.arg "ssid" r). set (p := Server.arg "password" r).
  set (d2 := WiFi.softAPdisconnect true _).
  pose proof (connectToWiFi_outcome e (c_str n) (c_str p) d2) as Ho.
  destruct (connectToWiFi e _ _ d2) as [ok d3].
  destruct Ho as (Hn & _ & Hs & Hpw & _).
  assert (Hn2 : nvs d2 = nvs (saveCredentials n p d1)) by reflexivity.
  assert (Hs2 : ssid d2 = n) by reflexivity.
  assert (Hpw2 : password d2 = p) by reflexivity.
  rewrite Hn2 in Hn. rewrite Hs2 in Hs. rewrite Hpw2 in Hpw.
  destruct ok; repeat split; assumption.
Qed.




(** ** C1: a submission with an empty name *)

(** C1, as the sketch behaves.  [setup()] attempts a connection only when
    the name is not empty; [handleConnect] has no such test.  For a
    submission with an empty name it stores the empty name and issues
    [WiFi.begin] with it, from every state and whatever the radio
    reports. *)
Theorem handleConnect_attempts_empty_name (e : Env) (secret : string) (d : Device) :
  let d' := handleConnect e (empty_name_request secret) d in
  Server.arg "ssid" (empty_name_request secret) = EmptyString /\
  trace d' = EvBegin EmptyString (c_str secret)
               :: EvSend 200 "text/html" (Html (PageConnect EmptyString))
               :: trace d /\
  ssid d' = EmptyString.
Proof.
  intros d'. split; [reflexivity|]. split.
  - apply (handleConnect_trace e (empty_name_request secret) d).
  - apply (handleConnect_store e (empty_name_request secret) d).
Qed.

(** ** C8: the captive resolver *)

Lemma portal_softAPIP d : portal d -> WiFi.softAPIP d = AP_DEFAULT_IP.
Proof.
  intros (_ & Hm & _ & Hap & _). unfold WiFi.softAPIP. rewrite Hm, Hap.
  reflexivity.
Qed.

Lemma portal_answers name d :
  portal d ->
  DNSServer.processNextRequest (Some name) d
  = set_trace (EvDnsReply name AP_DEFAULT_IP :: trace d) d.
Proof.
  intros (_ & _ & _ & _ & Hdns). unfold DNSServer.processNextRequest.
  rewrite Hdns. reflexivity.
Qed.

Lemma portal_loop_query e name d :
  portal d ->
  loop e (query_tick name) d
  = delay 10 (set_trace (EvDnsReply name AP_DEFAULT_IP :: trace d) d).
Proof.
  intros Hp. pose proof Hp as (Hc & _). unfold loop.
  rewrite Hc. cbn [query_tick dns_query http handleClient].
  rewrite (portal_answers name d Hp), check_link_portal by exact Hc.
  reflexivity.
Qed.

Lemma portal_run_queries e names : forall d,
  portal d ->
  portal (run e (map query_tick names) d) /\
  trace (run e (map query_tick names) d)
  = rev (map (fun name => EvDnsReply name AP_DEFAULT_IP) names) ++ trace d.
Proof.
  induction names as [|name names IH]; intros d Hp.
  - split; [exact Hp | reflexivity].
  - cbn [map run fold_left]. rewrite (portal_loop_query e name d Hp).
    set (d1 := delay 10 _).
    assert (Hp1 : portal d1) by exact Hp.
    destruct (IH d1 Hp1) as (Hpo & Htr). split; [exact Hpo|].
    unfold run in Htr. rewrite Htr. cbn [rev map]. rewrite <- app_assoc.
    reflexivity.
Qed.

(** C8.  While the portal is up (as [startConfigPortal] leaves it: access
    point running, resolver started for ["*"] on the access point's
    address), one servicing pass answers the waiting query, whatever the
    name, with the address of the device's own access point; passes of
    [loop()] over a queue of queries answer them all, in order, with that
    address, and the portal stays up.  A servicing pass with no query
    waiting returns the state unchanged, and the pass of [loop()] around it
    only lets its 10 ms go by. *)
Theorem captive_resolver_answers (e : Env) (names : list string) (d : Device) :
  portal d ->
  (forall name,
     DNSServer.processNextRequest (Some name) d
     = set_trace (EvDnsReply name (WiFi.softAPIP d) :: trace d) d) /\
  portal (run e (map query_tick names) d) /\
  trace (run e (map query_tick names) d)
  = rev (map (fun name => EvDnsReply name (WiFi.softAPIP d)) names) ++ trace d /\
  DNSServer.processNextRequest None d = d /\
  loop e idle_tick d = delay 10 d.
Proof.
  intros Hp. rewrite (portal_softAPIP d Hp).
  destruct (portal_run_queries e names d Hp) as (Hpo & Htr).
  split; [intros name; apply portal_answers, Hp|].
  split; [exact Hpo|]. split; [exact Htr|]. split.
  - unfold DNSServer.processNextRequest. destruct (dns d); reflexivity.
  - pose proof Hp as (Hc & _ & _ & _ & Hdns). unfold loop. rewrite Hc.
    unfold DNSServer.processNextRequest. rewrite Hdns.
    cbn [idle_tick dns_query http handleClient].
    rewrite check_link_portal by exact Hc. reflexivity.
Qed.

Lemma captive_resolver_answers_witness :
  portal (startConfigPortal (power_on ∅)) /\
  trace (run air_down (map query_tick ["example.org"; "captive.apple.com"])
           (startConfigPortal (power_on ∅)))
  = [EvDnsReply "captive.apple.com" (192, 168, 4, 1);
     EvDnsReply "example.org" (192, 168, 4, 1)].
Proof.
  split; [repeat split|].
  apply (captive_resolver_answers air_down ["example.org"; "captive.apple.com"]
           (startConfigPortal (power_on ∅))).
  repeat split.
Defined.

(** ** C10: the JSON endpoint *)

(** C10.  For every reading of the pins, [handleGPIOAPI] answers 200 with
    a text that reads as JSON and is the document of the claim: one object
    whose member [pins] has exactly five entries, for the pins 0, 1, 3, 4
    and 5 in this order, each with the pin number and the state ["HIGH"]
    when the pin reads [HIGH] and ["LOW"] otherwise.  The text depends on
    the levels of these five pins only, and the handler changes nothing of
    the device but the record of what it sent. *)
Theorem handleGPIOAPI_document (e : Env) (d : Device) :
  handleGPIOAPI e d
  = set_trace (EvSend 200 "application/json" (Json (gpio_json e)) :: trace d) d /\
  JsonReader.read (gpio_json e) = Some (gpio_document e) /\
  gpio_document e
  = JObject [("pins", JArray [pin_entry e 0; pin_entry e 1; pin_entry e 3;
                              pin_entry e 4; pin_entry e 5])] /\
  (forall pin, pin_level e pin = HIGH <->
               pin_entry e pin = JObject [("gpio", JNumber pin);
                                          ("state", JString "HIGH")]) /\
  (forall pin, pin_level e pin <> HIGH <->
               pin_entry e pin = JObject [("gpio", JNumber pin);
                                          ("state", JString "LOW")]) /\
  (forall e' : Env,
     (forall pin, In pin GPIO_PINS -> pin_level e' pin = pin_level e pin) ->
     gpio_json e' = gpio_json e).
Proof.
  split; [reflexivity|]. split; [|split; [reflexivity|split; [|split]]].
  - unfold gpio_document, pin_entry, gpio_json, gpio_entry, digitalRead.
    change (Z.to_nat NUM_PINS) with 5%nat.
    cbn [seq fold_left nth GPIO_PINS map].
    destruct (pin_level e 0 =? HIGH), (pin_level e 1 =? HIGH),
      (pin_level e 3 =? HIGH), (pin_level e 4 =? HIGH),
      (pin_level e 5 =? HIGH); vm_compute; reflexivity.
  - intros pin. unfold pin_entry. split.
    + intros ->. reflexivity.
    + destruct (pin_level e pin =? HIGH) eqn:E; [|discriminate].
      intros _. apply Z.eqb_eq, E.
  - intros pin. unfold pin_entry. split.
    + intros H. apply Z.eqb_neq in H. rewrite H. reflexivity.
    + destruct (pin_level e pin =? HIGH) eqn:E; [discriminate|].
      intros _. apply Z.eqb_neq, E.
  - intros e' Hsame. unfold gpio_json, gpio_entry, digitalRead.
    change (Z.to_nat NUM_PINS) with 5%nat.
    cbn [seq fold_left nth GPIO_PINS].
    rewrite !Hsame by (cbn; tauto). reflexivity.
Qed.


(** * Further properties *)

(** ** One station attempt, more closely *)

(** X1.  What [connectToWiFi] leaves alone and what it switches.  Whatever
    the radio reports, it issues exactly one [WiFi.begin], with the name
    and secret it was given; the store, its handle, the credentials in
    memory and the resolver's binding are as before.  The radio is left in
    station mode: the access-point interface is down, so that
    [WiFi.softAPIP()] is 0.0.0.0 even if the access point was up when the
    attempt began (what [WiFi.softAP] was given is still recorded).  When
    it returns [true] the portal flag is cleared and the link is up; when
    it returns [false] the flag is as it was and the link has been
    dropped. *)
Theorem attempt_touches_radio_only (e : Env) (ssid' password' : string)
    (d : Device) :
  let ok := fst (connectToWiFi e ssid' password' d) in
  let d' := snd (connectToWiFi e ssid' password' d) in
  trace d' = EvBegin ssid' password' :: trace d /\
  nvs d' = nvs d /\ prefs d' = prefs d /\
  ssid d' = ssid d /\ password d' = password d /\
  softap d' = softap d /\ dns d' = dns d /\
  wifi_mode d' = WIFI_STA /\ WiFi.softAPIP d' = IP_NONE /\
  (if ok then configMode d' = false /\ sta_status d' = WL_CONNECTED
   else configMode d' = configMode d /\ sta_status d' = WL_DISCONNECTED).
Proof.
  intros ok d'. subst ok d'.
  pose proof (connectToWiFi_outcome e ssid' password' d) as Ho.
  destruct (connectToWiFi e ssid' password' d) as [ok d'].
  destruct Ho as (Hn & Hp & Hs & Hpw & Hap & Hdns & Hm & Htr & Hok).
  cbn [fst snd]. repeat split; try assumption.
  unfold WiFi.softAPIP. rewrite Hm. reflexivity.
Qed.

Lemma status_up e d :
  sta_enabled (wifi_mode d) = true ->
  WiFi.status e d
  = (air e (polls d),
     set_polls (S (polls d)) (set_sta_status (air e (polls d)) d)).
Proof. intros H. unfold WiFi.status. rewrite H. reflexivity. Qed.

(** X2.  When the first reading after [WiFi.begin] says connected, the
    wait loop is left without a single [delay]: [connectToWiFi] returns at
    the time it was called, after two readings, and its result is what the
    second reading says.  So a link that shows up and is gone at the next
    reading makes the attempt fail although the loop was left on
    "connected". *)
Theorem attempt_decided_at_once (e : Env) (ssid' password' : string) (d : Device) :
  air e (polls d) = WL_CONNECTED ->
  let ok := fst (connectToWiFi e ssid' password' d) in
  let d' := snd (connectToWiFi e ssid' password' d) in
  millis d' = millis d /\ polls d' = (polls d + 2)%nat /\
  ok = bool_decide (air e (polls d + 1) = WL_CONNECTED) /\
  sta_status d' = (if ok then WL_CONNECTED else WL_DISCONNECTED).
Proof.
  intros Hfirst ok d'. subst ok d'. unfold connectToWiFi.
  set (d0 := WiFi.begin_ ssid' password' (WiFi.mode WIFI_STA d)).
  assert (Hw : wait_loop e (millis d0) d0
               = set_polls (S (polls d)) (set_sta_status WL_CONNECTED d0)).
  { rewrite wait_loop_step, (status_up e d0 eq_refl). cbn [fst snd].
    change (polls d0) with (polls d). rewrite Hfirst.
    unfold still_waiting. rewrite bool_decide_eq_true_2 by reflexivity.
    reflexivity. }
  rewrite Hw, status_up by reflexivity.
  cbn [polls set_polls set_sta_status].
  replace (polls d + 1)%nat with (S (polls d)) by lia.
  destruct (bool_decide (air e (S (polls d)) = WL_CONNECTED)) eqn:Hsecond;
    cbn [fst snd].
  - apply bool_decide_eq_true in Hsecond.
    repeat split; [cbn; lia | exact Hsecond].
  - repeat split. cbn. lia.
Qed.

Lemma attempt_decided_at_once_witness :
  air air_up (polls (power_on ∅)) = WL_CONNECTED /\
  millis (snd (connectToWiFi air_up "home" "secret123" (power_on ∅))) = 0.
Proof.
  split; [reflexivity|].
  apply (attempt_decided_at_once air_up "home" "secret123" (power_on ∅)).
  reflexivity.
Defined.

(** X3.  [connectToWiFi] does not give up before its deadline.  When none
    of the first twenty-one readings after [WiFi.begin] says connected,
    the wait loop is left by its time test only: on return at least
    [WIFI_TIMEOUT] ms have passed by [millis()] since [startTime] was
    taken, after the two radio calls; the loop made at most twenty passes;
    and the result is what the one reading taken after the loop says, so
    that a link that comes up right after the deadline still counts as
    success. *)
Theorem attempt_runs_to_deadline (e : Env) (ssid' password' : string) (d : Device) :
  (forall j, (j <= 20)%nat -> air e (polls d + j) <> WL_CONNECTED) ->
  let ok := fst (connectToWiFi e ssid' password' d) in
  let d' := snd (connectToWiFi e ssid' password' d) in
  let startTime := millis (WiFi.begin_ ssid' password' (WiFi.mode WIFI_STA d)) in
  exists k : nat,
    (k <= 20)%nat /\
    WIFI_TIMEOUT <= elapsed startTime d' /\
    polls d' = (polls d + k + 2)%nat /\
    ok = bool_decide (air e (polls d + k + 1) = WL_CONNECTED) /\
    sta_status d' = (if ok then WL_CONNECTED else WL_DISCONNECTED).
Proof.
  intros Hnone ok d' startTime. subst ok d' startTime. unfold connectToWiFi.
  set (d0 := WiFi.begin_ ssid' password' (WiFi.mode WIFI_STA d)).
  destruct (wait_loop_spec e (millis d0) d0 eq_refl)
    as (k & Hk & _ & _ & Hexit & Hpolls & Hel & _ & Hsame).
  change (millis d0) with (millis d) in *.
  change (polls d0) with (polls d) in *.
  assert (Hz : elapsed (millis d) d0 = 0).
  { unfold elapsed, d0. cbn. rewrite Z.sub_diag. reflexivity. }
  rewrite Hz in *.
  assert (Hk20 : (k <= 20)%nat) by (unfold WIFI_TIMEOUT in Hk; lia).
  assert (Ht : WIFI_TIMEOUT <= 500 * Z.of_nat k).
  { destruct Hexit as [Hc | Ht]; [|lia].
    exfalso. apply (Hnone k); assumption. }
  destruct Hsame as (_ & _ & _ & _ & _ & Hm & _).
  rewrite status_up by (rewrite Hm; reflexivity). rewrite Hpolls.
  exists k. split; [exact Hk20|].
  destruct (bool_decide (air e (polls d + k + 1) = WL_CONNECTED)) eqn:Hlast;
    cbn [fst snd].
  - split; [|split; [cbn; lia | split; [reflexivity|]]].
    + change (elapsed (millis d) (set_configMode _ (set_polls _ (set_sta_status _ ?x))))
        with (elapsed (millis d) x). lia.
    + apply bool_decide_eq_true in Hlast. exact Hlast.
  - split; [|split; [cbn; lia | split; reflexivity]].
    change (elapsed (millis d) (WiFi.disconnect (set_polls _ (set_sta_status _ ?x))))
      with (elapsed (millis d) x). lia.
Qed.

Lemma attempt_runs_to_deadline_witness :
  (forall j, (j <= 20)%nat ->
             air air_late (polls (power_on ∅) + j) <> WL_CONNECTED) /\
  exists k : nat,
    (k <= 20)%nat /\
    WIFI_TIMEOUT
    <= elapsed (millis (WiFi.begin_ "home" "secret123"
                          (WiFi.mode WIFI_STA (power_on ∅))))
         (snd (connectToWiFi air_late "home" "secret123" (power_on ∅))) /\
    polls (snd (connectToWiFi air_late "home" "secret123" (power_on ∅)))
    = (polls (power_on ∅) + k + 2)%nat /\
    fst (connectToWiFi air_late "home" "secret123" (power_on ∅))
    = bool_decide (air air_late (polls (power_on ∅) + k + 1) = WL_CONNECTED) /\
    sta_status (snd (connectToWiFi air_late "home" "secret123" (power_on ∅)))
    = (if fst (connectToWiFi air_late "home" "secret123" (power_on ∅))
       then WL_CONNECTED else WL_DISCONNECTED).
Proof.
  assert (H : forall j, (j <= 20)%nat ->
                        air air_late (polls (power_on ∅) + j) <> WL_CONNECTED).
  { intros j Hj. change (polls (power_on ∅) + j)%nat with j.
    unfold air_late. cbn [air].
    destruct (Nat.ltb_spec j 22); [discriminate | lia]. }
  split; [exact H|].
  apply (attempt_runs_to_deadline air_late "home" "secret123" (power_on ∅) H).
Defined.

(** ** Boot *)

Lemma loadCredentials_trace d : trace (loadCredentials d) = trace d.
Proof.
  unfold loadCredentials.
  cbn [trace Preferences.end_ set_prefs set_password set_ssid].
  apply begin_trace.
Qed.

Lemma begin_nvs name ro d : nvs (Preferences.begin_ name ro d) = nvs d.
Proof. unfold Preferences.begin_. destruct (prefs d); reflexivity. Qed.

Lemma loadCredentials_nvs d : nvs (loadCredentials d) = nvs d.
Proof.
  unfold loadCredentials.
  cbn [nvs Preferences.end_ set_prefs set_password set_ssid].
  apply begin_nvs.
Qed.

(** [setup()] in terms of what it loaded: the store is only read, and the
    one event it may add is the attempt with the loaded credential. *)
Lemma setup_reads e d :
  let d1 := loadCredentials (delay 1000 d) in
  nvs (setup e d) = nvs d /\
  ssid (setup e d) = ssid d1 /\ password (setup e d) = password d1 /\
  prefs (setup e d) = prefs d1 /\
  trace (setup e d)
  = (if (0 <? String.length (ssid d1))%nat
     then [EvBegin (c_str (ssid d1)) (c_str (password d1))] else [])
    ++ trace d.
Proof.
  intros d1. unfold setup, initializeGPIO. fold d1.
  assert (Hn : nvs d1 = nvs d) by (unfold d1; rewrite loadCredentials_nvs; reflexivity).
  assert (Ht : trace d1 = trace d) by (unfold d1; rewrite loadCredentials_trace; reflexivity).
  destruct (0 <? String.length (ssid d1))%nat.
  - pose proof (connectToWiFi_outcome e (c_str (ssid d1)) (c_str (password d1)) d1) as Ho.
    destruct (connectToWiFi e _ _ d1) as [ok d2].
    destruct Ho as (Hn2 & Hp2 & Hs2 & Hpw2 & _ & _ & _ & Htr & _).
    rewrite Hn in Hn2. rewrite Ht in Htr.
    destruct ok; cbn [negb]; repeat split; assumption.
  - repeat split; assumption.
Qed.

(** What booting leaves: the flash untouched, the loaded credential in
    memory, at most the one attempt in the record. *)
Lemma boot_reads (e : Env) (flash : gmap string (gmap string string)) :
  let name := default EmptyString (flash !! "wifi" ≫= (.!! "ssid")) in
  let secret := default EmptyString (flash !! "wifi" ≫= (.!! "password")) in
  nvs (boot e flash) = flash /\
  ssid (boot e flash) = name /\ password (boot e flash) = secret /\
  trace (boot e flash)
  = if (0 <? String.length name)%nat
    then [EvBegin (c_str name) (c_str secret)] else [].
Proof.
  intros name secret.
  destruct (setup_reads e (power_on flash)) as (Hn & Hs & Hpw & _ & Htr).
  destruct (loadCredentials_frame (delay 1000 (power_on flash)) eq_refl)
    as (_ & _ & Hls & Hlp & _).
  change (Preferences.stored "wifi" "ssid" (delay 1000 (power_on flash)))
    with (flash !! "wifi" ≫= (.!! "ssid")) in Hls.
  change (Preferences.stored "wifi" "password" (delay 1000 (power_on flash)))
    with (flash !! "wifi" ≫= (.!! "password")) in Hlp.
  fold name in Hls. fold secret in Hlp.
  unfold boot. rewrite Hn, Hs, Hpw, Htr, Hls, Hlp.
  repeat split. apply app_nil_r.
Qed.

(** X4.  Booting only reads the store.  For every flash and every radio,
    after [setup()] the flash is what it was, [ssid] and [password] hold
    the stored name and secret (empty when the key or the namespace is
    missing), and the record shows exactly one [WiFi.begin], with the C
    strings of the stored credential, when the stored name is not empty,
    and nothing at all when it is.  In particular a credential that just
    connected is not written back. *)
Theorem boot_only_reads_store (e : Env) (flash : gmap string (gmap string string)) :
  let name := default EmptyString (flash !! "wifi" ≫= (.!! "ssid")) in
  let secret := default EmptyString (flash !! "wifi" ≫= (.!! "password")) in
  nvs (boot e flash) = flash /\
  ssid (boot e flash) = name /\ password (boot e flash) = secret /\
  trace (boot e flash)
  = if (0 <? String.length name)%nat
    then [EvBegin (c_str name) (c_str secret)] else [].
Proof. exact (boot_reads e flash). Qed.

(** Time since any instant, over a stretch whose own length is known. *)
Lemma elapsed_since s0 s1 d :
  elapsed s0 d = wrap32 (wrap32 (s1 - s0) + elapsed s1 d).
Proof.
  unfold elapsed, wrap32.
  rewrite <- Z.add_mod by lia. f_equal. lia.
Qed.

Lemma elapsed_self d : elapsed (millis d) d = 0.
Proof. unfold elapsed. rewrite Z.sub_diag. reflexivity. Qed.

(** The clock and the readings taken over one station attempt. *)
Lemma connectToWiFi_clock e ssid' password' d :
  exists k : nat, (k <= 20)%nat /\
    elapsed (millis d) (snd (connectToWiFi e ssid' password' d))
    = 500 * Z.of_nat k /\
    polls (snd (connectToWiFi e ssid' password' d)) = (polls d + k + 2)%nat.
Proof.
  unfold connectToWiFi.
  set (d0 := WiFi.begin_ ssid' password' (WiFi.mode WIFI_STA d)).
  destruct (wait_loop_spec e (millis d0) d0 eq_refl)
    as (k & Hk & _ & _ & _ & Hpolls & Hel & _ & Hsame).
  rewrite (elapsed_self d0) in Hk, Hel.
  change (millis d0) with (millis d) in *.
  change (polls d0) with (polls d) in *.
  assert (Hk20 : (k <= 20)%nat) by (unfold WIFI_TIMEOUT in Hk; lia).
  destruct Hsame as (_ & _ & _ & _ & _ & Hm & _).
  rewrite status_up by (rewrite Hm; reflexivity). rewrite Hpolls.
  exists k. split; [exact Hk20|].
  destruct (bool_decide _); cbn [fst snd].
  - split; [|cbn; lia].
    change (elapsed (millis d) (set_configMode _ (set_polls _ (set_sta_status _ ?x))))
      with (elapsed (millis d) x). lia.
  - split; [|cbn; lia].
    change (elapsed (millis d) (WiFi.disconnect (set_polls _ (set_sta_status _ ?x))))
      with (elapsed (millis d) x). lia.
Qed.

Lemma startConfigPortal_clock s d :
  elapsed s (startConfigPortal d) = wrap32 (wrap32 (elapsed s d + 100) + 500) /\
  polls (startConfigPortal d) = polls d /\
  configMode (startConfigPortal d) = true.
Proof.
  split; [|split; reflexivity].
  unfold elapsed, startConfigPortal, delay, wrap32.
  cbn [millis set_millis set_configMode WiFi.disconnect WiFi.mode WiFi.softAP
       DNSServer.start set_dns set_softap set_wifi_mode set_sta_status].
  rewrite Zminus_mod_idemp_l, !Zplus_mod_idemp_l.
  replace ((millis d + 100) mod 2 ^ 32 + 500 - s)
    with ((millis d + 100) mod 2 ^ 32 + (500 - s)) by lia.
  replace ((millis d - s) mod 2 ^ 32 + 100 + 500)
    with ((millis d - s) mod 2 ^ 32 + 600) by lia.
  rewrite !Zplus_mod_idemp_l. f_equal. lia.
Qed.

(** X5.  How long [setup()] waits and how often it reads the radio.  From
    any state, [setup()] does not return before the 1000 ms of its opening
    [delay] have passed by [millis()], and not before 1600 ms when it ends
    in the portal, whose start holds two more delays of 100 ms and 500 ms.
    Over the whole of [setup()] the station's status is read at most 22
    times, and not once when no network name is stored. *)
Theorem setup_waits_and_reads (e : Env) (d : Device) :
  let d' := setup e d in
  1000 <= elapsed (millis d) d' /\
  (configMode d' = true -> 1600 <= elapsed (millis d) d') /\
  (polls d <= polls d' <= polls d + 22)%nat /\
  (ssid (loadCredentials d) = EmptyString -> polls d' = polls d).
Proof.
  intros d'. subst d'. unfold setup, initializeGPIO.
  set (d1 := loadCredentials (delay 1000 d)).
  assert (Hs1 : ssid d1 = ssid (loadCredentials d)).
  { unfold d1, loadCredentials, Preferences.begin_, delay.
    cbn [prefs set_millis]. destruct (prefs d); reflexivity. }
  assert (Hp1 : polls d1 = polls d).
  { unfold d1, loadCredentials, Preferences.begin_, delay.
    cbn [prefs set_millis]. destruct (prefs d); reflexivity. }
  assert (Hm1 : millis d1 = wrap32 (millis d + 1000)).
  { unfold d1, loadCredentials, Preferences.begin_, delay.
    cbn [prefs set_millis]. destruct (prefs d); reflexivity. }
  assert (He1 : elapsed (millis d) d1 = 1000).
  { unfold elapsed. rewrite Hm1. unfold wrap32.
    rewrite Zminus_mod_idemp_l.
    replace (millis d + 1000 - millis d) with 1000 by lia. reflexivity. }
  assert (Hw1 : wrap32 (millis d1 - millis d) = 1000) by exact He1.
  destruct (0 <? String.length (ssid d1))%nat eqn:Hlen.
  - destruct (connectToWiFi_clock e (c_str (ssid d1)) (c_str (password d1)) d1)
      as (k & Hk & Hel & Hpolls).
    pose proof (connectToWiFi_outcome e (c_str (ssid d1)) (c_str (password d1)) d1)
      as Ho.
    destruct (connectToWiFi e (c_str (ssid d1)) (c_str (password d1)) d1)
      as [ok d2].
    cbn [fst snd] in Hel, Hpolls.
    destruct Ho as (_ & _ & _ & _ & _ & _ & _ & _ & Hok).
    assert (He2 : elapsed (millis d) d2 = 1000 + 500 * Z.of_nat k).
    { rewrite (elapsed_since (millis d) (millis d1) d2), Hw1, Hel.
      unfold wrap32. apply Z.mod_small. lia. }
    destruct ok; cbn [negb].
    + destruct Hok as (Hc & _).
      split; [lia|]. split; [rewrite Hc; discriminate|].
      split; [lia|].
      intros Hnone. rewrite Hs1, Hnone in Hlen. discriminate.
    + destruct (startConfigPortal_clock (millis d) d2) as (Hel3 & Hp3 & _).
      rewrite Hel3, Hp3, He2. unfold wrap32.
      rewrite (Z.mod_small (1000 + 500 * Z.of_nat k + 100)) by lia.
      rewrite Z.mod_small by lia.
      split; [lia|]. split; [lia|]. split; [lia|].
      intros Hnone. rewrite Hs1, Hnone in Hlen. discriminate.
  - destruct (startConfigPortal_clock (millis d) d1) as (Hel3 & Hp3 & _).
    rewrite Hel3, Hp3, He1. unfold wrap32.
    rewrite (Z.mod_small (1000 + 100)) by lia.
    rewrite Z.mod_small by lia.
    split; [lia|]. split; [lia|]. split; [lia|].
    intros _. exact Hp1.
Qed.

(** ** Passes of [loop()] *)

Lemma count_events_app kind evs tr :
  count_events kind (evs ++ tr) = (count_events kind evs + count_events kind tr)%nat.
Proof. unfold count_events. rewrite List.filter_app, length_app. reflexivity. Qed.

Lemma count_events_cons kind ev tr :
  count_events kind (ev :: tr)
  = ((if kind ev then 1 else 0) + count_events kind tr)%nat.
Proof. unfold count_events. cbn [List.filter]. destruct (kind ev); reflexivity. Qed.

Lemma clear_trace d : trace (Preferences.clear d) = trace d.
Proof. unfold Preferences.clear. destruct (prefs d) as [[ns []]|]; reflexivity. Qed.

(** The resolver adds its one answer, or nothing. *)
Lemma processNextRequest_trace q d :
  nvs (DNSServer.processNextRequest q d) = nvs d /\
  configMode (DNSServer.processNextRequest q d) = configMode d /\
  (trace (DNSServer.processNextRequest q d) = trace d \/
   exists ev, is_dns ev = true /\
              trace (DNSServer.processNextRequest q d) = ev :: trace d).
Proof.
  unfold DNSServer.processNextRequest.
  destruct (dns d) as [srv|], q as [name|]; try (repeat split; left; reflexivity).
  destruct (_ || _); repeat split; right; eexists; (split; [|reflexivity]);
    reflexivity.
Qed.

(** [handleReset()] from any state: one page, the restart, and at most the
    attempt of [setup()]. *)
Lemma handleReset_trace e d :
  exists bs,
    trace (handleReset e d)
    = bs ++ EvRestart :: EvSend 200 "text/html" (Html PageReset) :: trace d /\
    (bs = [] \/ exists n p, bs = [EvBegin n p]).
Proof.
  unfold handleReset, ESP_restart.
  set (d1 := delay 2000 _).
  assert (Ht : trace d1 = EvSend 200 "text/html" (Html PageReset) :: trace d).
  { unfold d1. cbn [trace delay set_millis Preferences.end_ set_prefs].
    rewrite clear_trace, begin_trace. reflexivity. }
  set (d2 := set_trace _ _).
  destruct (setup_reads e d2) as (_ & _ & _ & _ & Htr).
  rewrite Htr. change (trace d2) with (EvRestart :: trace d1). rewrite Ht.
  eexists. split; [reflexivity|].
  destruct (0 <? _)%nat; [right; eexists _, _; reflexivity | left; reflexivity].
Qed.

(** A request that is neither a submission nor a reset gets one page from
    a handler that only sends. *)
Lemma handleClient_page e r d :
  is_submission (Some r) = false -> is_reset (Some r) = false ->
  exists code ctype b,
    handleClient e (Some r) d = Running (Server.send code ctype b d).
Proof.
  intros Hs Hr. cbn [handleClient]. cbn in Hs, Hr.
  destruct (method r); cbn in Hs, Hr.
  - repeat match goal with |- context [String.eqb ?a ?b] => destruct (String.eqb a b) end;
      try destruct (configMode d); eexists _, _, _; reflexivity.
  - change (bool_decide (HTTP_POST = HTTP_POST)) with true in Hs, Hr.
    cbn [andb] in Hs, Hr. rewrite Hs, Hr.
    destruct (configMode d); eexists _, _, _; reflexivity.
  - destruct (configMode d); eexists _, _, _; reflexivity.
Qed.

(** What [check_link] can do: nothing to the store or the credentials,
    and at most one attempt, with the credentials in memory. *)
Lemma check_link_frame e d :
  nvs (check_link e d) = nvs d /\ prefs (check_link e d) = prefs d /\
  ssid (check_link e d) = ssid d /\ password (check_link e d) = password d /\
  (trace (check_link e d) = trace d \/
   trace (check_link e d)
   = EvBegin (c_str (ssid d)) (c_str (password d)) :: trace d).
Proof.
  unfold check_link. destruct (configMode d); [repeat split; left; reflexivity|].
  assert (Hst : same_but_radio d (snd (WiFi.status e d)))
    by (unfold WiFi.status; destruct (sta_enabled _); repeat split).
  destruct (WiFi.status e d) as [st d1]. cbn [snd] in Hst.
  destruct Hst as (Hn & Hp & Hs & Hpw & _ & _ & _ & _ & Htr).
  destruct (bool_decide _).
  - repeat split; try assumption. left. exact Htr.
  - pose proof (connectToWiFi_outcome e (c_str (ssid d1)) (c_str (password d1)) d1) as Ho.
    destruct (connectToWiFi e _ _ d1) as [ok d2].
    destruct Ho as (Hn2 & Hp2 & Hs2 & Hpw2 & _ & _ & _ & Htr2 & _).
    rewrite Hs, Hpw, Htr in Htr2.
    destruct ok; cbn [negb];
      (repeat split; try (cbn; congruence); right; exact Htr2).
Qed.

(** The two cases of a pass outside the portal with no request. *)
Lemma loop_link_check (e : Env) (q : option string) (d : Device) :
  configMode d = false -> sta_enabled (wifi_mode d) = true ->
  let d' := loop e {| dns_query := q; http := None |} d in
  if bool_decide (air e (polls d) = WL_CONNECTED)
  then d' = delay 10 (set_polls (S (polls d)) (set_sta_status WL_CONNECTED d))
  else let d1 := set_polls (S (polls d)) (set_sta_status (air e (polls d)) d) in
       let r := connectToWiFi e (c_str (ssid d)) (c_str (password d)) d1 in
       trace d' = EvBegin (c_str (ssid d)) (c_str (password d)) :: trace d /\
       nvs d' = nvs d /\ ssid d' = ssid d /\ password d' = password d /\
       if fst r
       then d' = delay 10 (snd r) /\ online d'
       else d' = delay 10 (startConfigPortal (snd r)) /\ portal d'.
Proof.
  intros Hc Hsta d'. subst d'. unfold loop. rewrite Hc.
  cbn [http handleClient]. unfold check_link. rewrite Hc.
  rewrite status_up by exact Hsta.
  destruct (bool_decide (air e (polls d) = WL_CONNECTED)) eqn:Hst.
  - apply bool_decide_eq_true in Hst. rewrite Hst. reflexivity.
  - cbv zeta.
    set (d1 := set_polls (S (polls d)) (set_sta_status (air e (polls d)) d)).
    change (ssid d1) with (ssid d). change (password d1) with (password d).
    pose proof (connectToWiFi_outcome e (c_str (ssid d)) (c_str (password d)) d1) as Ho.
    destruct (connectToWiFi e (c_str (ssid d)) (c_str (password d)) d1) as [ok d2].
    destruct Ho as (Hn2 & _ & Hs2 & Hpw2 & _ & _ & Hm2 & Htr2 & Hok).
    cbn [fst snd].
    destruct ok; cbn [negb].
    + destruct Hok as [Hc2 Hst2]. repeat split; assumption.
    + repeat split; assumption.
Qed.

(** X6.  Link supervision.  Take a pass of [loop()] outside the portal,
    with the station interface up and no request waiting.  If the radio
    reads connected, the pass does nothing but take that reading and let
    10 ms go by.  If it reads anything else, the pass makes exactly one
    attempt, [connectToWiFi] with the C strings of the name and secret
    held in memory, from the state that reading left, and writes nothing
    to the store.  What the attempt returns decides the rest: when it
    returns [true] the pass ends in the state the attempt left, 10 ms
    later, on line; when it returns [false] the pass runs
    [startConfigPortal] on that state and ends in the portal. *)
Theorem link_supervision (e : Env) (q : option string) (d : Device) :
  configMode d = false -> sta_enabled (wifi_mode d) = true ->
  let d' := loop e {| dns_query := q; http := None |} d in
  if bool_decide (air e (polls d) = WL_CONNECTED)
  then d' = delay 10 (set_polls (S (polls d)) (set_sta_status WL_CONNECTED d))
  else let d1 := set_polls (S (polls d)) (set_sta_status (air e (polls d)) d) in
       let r := connectToWiFi e (c_str (ssid d)) (c_str (password d)) d1 in
       trace d' = EvBegin (c_str (ssid d)) (c_str (password d)) :: trace d /\
       nvs d' = nvs d /\ ssid d' = ssid d /\ password d' = password d /\
       if fst r
       then d' = delay 10 (snd r) /\ online d'
       else d' = delay 10 (startConfigPortal (snd r)) /\ portal d'.
Proof. exact (loop_link_check e q d). Qed.

Lemma link_supervision_witness :
  configMode (boot air_blip home_flash) = false /\
  sta_enabled (wifi_mode (boot air_blip home_flash)) = true /\
  trace (loop air_blip idle_tick (boot air_blip home_flash))
  = [EvBegin "home" "secret123"; EvBegin "home" "secret123"].
Proof.
  split; [reflexivity|]. split; [reflexivity|].
  pose proof (link_supervision air_blip None (boot air_blip home_flash)
                eq_refl eq_refl) as H.
  assert (Hb : bool_decide (air air_blip (polls (boot air_blip home_flash))
                            = WL_CONNECTED) = false) by reflexivity.
  rewrite Hb in H. exact (proj1 H).
Defined.

(** X7.  The store and the credentials in memory change only on a
    submission or a reset.  A pass of [loop()] whose request, if any, is
    neither POST /connect nor POST /reset leaves the flash, [ssid] and
    [password] as they were, from every state and whatever the radio does,
    also when the pass loses the link, re-attempts and falls back to the
    portal. *)
Theorem store_changes_need_a_request (e : Env) (t : Tick) (d : Device) :
  is_submission (http t) = false -> is_reset (http t) = false ->
  nvs (loop e t d) = nvs d /\ ssid (loop e t d) = ssid d /\
  password (loop e t d) = password d.
Proof.
  intros Hs Hr. unfold loop.
  set (d0 := if configMode d then _ else d).
  assert (H0 : nvs d0 = nvs d /\ ssid d0 = ssid d /\ password d0 = password d).
  { unfold d0. destruct (configMode d); [|repeat split].
    destruct (processNextRequest_quiet (dns_query t) d) as (evs & -> & _).
    repeat split. }
  destruct H0 as (Hn0 & Hs0 & Hp0).
  destruct (handleClient_other e _ d0 Hs Hr) as (evs & -> & _).
  destruct (check_link_frame e (set_trace (evs ++ trace d0) d0))
    as (Hn & _ & Hss & Hpw & _).
  cbn [nvs ssid password delay set_millis].
  rewrite Hn, Hss, Hpw. repeat split; assumption.
Qed.

Lemma store_changes_need_a_request_witness :
  is_submission (Some stray_request) = false /\
  is_reset (Some stray_request) = false /\
  nvs (loop air_blip {| dns_query := None; http := Some stray_request |}
         (boot air_blip home_flash)) = home_flash.
Proof.
  split; [reflexivity|]. split; [reflexivity|].
  apply (store_changes_need_a_request air_blip
           {| dns_query := None; http := Some stray_request |}
           (boot air_blip home_flash)); reflexivity.
Defined.

(** What the resolver's part of a pass adds to the record. *)
Lemma resolver_events t d :
  let d0 := if configMode d
            then DNSServer.processNextRequest (dns_query t) d else d in
  exists dev, trace d0 = dev ++ trace d /\
    (count_events is_send dev = 0 /\ count_events is_begin dev = 0 /\
     count_events is_dns dev <= 1 /\ (configMode d = false -> dev = []))%nat.
Proof.
  intros d0. unfold d0. destruct (configMode d).
  - destruct (processNextRequest_trace (dns_query t) d) as (_ & _ & [Ht | (ev & Hev & Ht)]).
    + exists []. rewrite Ht. repeat split. cbn. lia.
    + exists [ev]. rewrite Ht. split; [reflexivity|].
      destruct ev; try discriminate; repeat split; cbn; try lia; discriminate.
  - exists []. repeat split. cbn. lia.
Qed.

(** What the request handler adds: one response per request, the attempt
    of a submission, the restart of a reset. *)
Lemma handler_events e t d :
  exists hev,
    trace (after_handler (handleClient e (http t) d)) = hev ++ trace d /\
    (count_events is_send hev = requests_waiting t /\
     count_events is_begin hev <= 1 /\ count_events is_dns hev = 0 /\
     (is_submission (http t) = false -> is_reset (http t) = false ->
      count_events is_begin hev = 0))%nat.
Proof.
  unfold requests_waiting.
  destruct (is_submission (http t)) eqn:Hsub.
  - destruct (handleClient_submission e _ d Hsub) as (r & Hreq & Hc).
    rewrite Hc, Hreq. cbn [after_handler]. rewrite handleConnect_trace.
    eexists [_; _]. split; [reflexivity|].
    repeat split; cbn; try lia; discriminate.
  - destruct (is_reset (http t)) eqn:Hres.
    + rewrite (handleClient_reset e _ d Hres). cbn [after_handler].
      destruct (handleReset_trace e d) as (bs & Htr & Hbs). rewrite Htr.
      exists (bs ++ [EvRestart; EvSend 200 "text/html" (Html PageReset)]).
      split; [rewrite <- app_assoc; reflexivity|].
      destruct (http t) as [r|]; [|discriminate].
      destruct Hbs as [-> | (n & p & ->)]; repeat split; cbn; try lia; discriminate.
    + destruct (http t) as [r|].
      * destruct (handleClient_page e r d Hsub Hres) as (code & ctype & b & Hc).
        rewrite Hc. cbn [after_handler]. eexists [_]. split; [reflexivity|].
        repeat split; cbn; lia.
      * exists []. split; [reflexivity|]. repeat split; cbn; lia.
Qed.

Lemma handleClient_control e req d :
  if is_reset req then handleClient e req d = Restarted (handleReset e d)
  else exists d1, handleClient e req d = Running d1.
Proof.
  destruct (is_reset req) eqn:Hres; [apply handleClient_reset, Hres|].
  destruct (is_submission req) eqn:Hsub.
  - destruct (handleClient_submission e req d Hsub) as (r & _ & ->).
    eexists. reflexivity.
  - destruct (handleClient_other e req d Hsub Hres) as (evs & -> & _).
    eexists. reflexivity.
Qed.

(** What the link check adds: at most one attempt. *)
Lemma check_link_events e d :
  exists cev, trace (check_link e d) = cev ++ trace d /\
    (count_events is_send cev = 0 /\ count_events is_begin cev <= 1 /\
     count_events is_dns cev = 0)%nat.
Proof.
  destruct (check_link_frame e d) as (_ & _ & _ & _ & [Htr | Htr]); rewrite Htr.
  - exists []. split; [reflexivity|]. repeat split; cbn; lia.
  - eexists [_]. split; [reflexivity|]. repeat split; cbn; lia.
Qed.

Lemma trace_delay ms d : trace (delay ms d) = trace d.
Proof. reflexivity. Qed.

Lemma after_Restarted d : after_handler (Restarted d) = d.
Proof. reflexivity. Qed.

Lemma after_Running d : after_handler (Running d) = d.
Proof. reflexivity. Qed.

(** The two ways a pass ends. *)
Lemma loop_restarted e t d d0 :
  d0 = (if configMode d
        then DNSServer.processNextRequest (dns_query t) d else d) ->
  is_reset (http t) = true -> loop e t d = handleReset e d0.
Proof.
  intros -> Hres. unfold loop. rewrite handleClient_reset by exact Hres.
  reflexivity.
Qed.

Lemma loop_running e t d d0 d1 :
  d0 = (if configMode d
        then DNSServer.processNextRequest (dns_query t) d else d) ->
  handleClient e (http t) d0 = Running d1 ->
  loop e t d = delay 10 (check_link e d1).
Proof. intros -> Hc. unfold loop. rewrite Hc. reflexivity. Qed.

(** What one pass adds to the record, in three parts: the answer of the
    resolver, the events of the request handler, the attempt of the link
    check. *)
Lemma loop_events e t d :
  exists cev hev dev,
    trace (loop e t d) = cev ++ hev ++ dev ++ trace d /\
    (count_events is_send dev = 0 /\ count_events is_begin dev = 0 /\
     count_events is_dns dev <= 1 /\ (configMode d = false -> dev = []))%nat /\
    (count_events is_send hev = requests_waiting t /\
     count_events is_begin hev <= 1 /\ count_events is_dns hev = 0 /\
     (is_submission (http t) = false -> is_reset (http t) = false ->
      count_events is_begin hev = 0))%nat /\
    (count_events is_send cev = 0 /\ count_events is_begin cev <= 1 /\
     count_events is_dns cev = 0 /\ (is_reset (http t) = true -> cev = []))%nat.
Proof.
  destruct (resolver_events t d) as (dev & Hdev & Hdc).
  remember (if configMode d
            then DNSServer.processNextRequest (dns_query t) d else d) as d0
    eqn:Hd0.
  destruct (handler_events e t d0) as (hev & Hht & Hhc).
  pose proof (handleClient_control e (http t) d0) as Hctl.
  destruct (is_reset (http t)) eqn:Hres.
  - rewrite (loop_restarted e t d d0 Hd0 Hres).
    rewrite Hctl, after_Restarted in Hht.
    exists [], hev, dev. rewrite Hht, Hdev.
    split; [reflexivity|]. split; [exact Hdc|]. split; [exact Hhc|].
    repeat split. unfold count_events. cbn. lia.
  - destruct Hctl as (d1 & Hc).
    rewrite (loop_running e t d d0 d1 Hd0 Hc), trace_delay.
    rewrite Hc, after_Running in Hht.
    destruct (check_link_events e d1) as (cev & Htr & Hcc).
    exists cev, hev, dev. rewrite Htr, Hht, Hdev.
    split; [reflexivity|]. split; [exact Hdc|]. split; [exact Hhc|].
    destruct Hcc as (? & ? & ?). repeat split; try assumption. discriminate.
Qed.

(** X8.  Every request is answered exactly once.  In one pass of
    [loop()], from every state and whatever the radio does, the number of
    responses sent grows by one when a request was waiting and by none
    when there was none; this holds for the pages, the JSON endpoint, the
    404, a submission (whose page goes out before the attempt) and a
    reset (whose page goes out before the restart). *)
Theorem one_response_per_request (e : Env) (t : Tick) (d : Device) :
  count_events is_send (trace (loop e t d))
  = (requests_waiting t + count_events is_send (trace d))%nat.
Proof.
  destruct (loop_events e t d)
    as (cev & hev & dev & -> & (Hd & _) & (Hh & _) & (Hc & _)).
  rewrite !count_events_app. lia.
Qed.

(** X9.  A pass of [loop()] makes at most two station attempts, and at
    most one unless its request is a submission: so a pass blocks for two
    deadlines at the most.  (Two happen when a submission connects and the
    link is gone again at the check that follows in the same pass.) *)
Theorem attempts_per_pass (e : Env) (t : Tick) (d : Device) :
  (count_events is_begin (trace (loop e t d))
   <= 2 + count_events is_begin (trace d))%nat /\
  (is_submission (http t) = false ->
   count_events is_begin (trace (loop e t d))
   <= 1 + count_events is_begin (trace d))%nat.
Proof.
  destruct (loop_events e t d)
    as (cev & hev & dev & -> & (_ & Hd & _) & (_ & Hh & _ & Hh0)
        & (_ & Hc & _ & Hc0)).
  rewrite !count_events_app. split; [lia|].
  intros Hsub. destruct (is_reset (http t)) eqn:Hres.
  - rewrite (Hc0 eq_refl). cbn. lia.
  - specialize (Hh0 Hsub eq_refl). lia.
Qed.

(** X10.  The resolver is serviced in the portal only.  A pass of
    [loop()] that starts outside the portal answers no name-resolution
    query, even one that is waiting and even if the pass ends in the
    portal; a pass that starts in the portal answers one at the most. *)
Theorem resolver_serviced_in_portal_only (e : Env) (t : Tick) (d : Device) :
  (count_events is_dns (trace (loop e t d))
   <= (if configMode d then 1 else 0) + count_events is_dns (trace d))%nat /\
  (count_events is_dns (trace d) <= count_events is_dns (trace (loop e t d)))%nat.
Proof.
  destruct (loop_events e t d)
    as (cev & hev & dev & -> & (_ & _ & Hd & Hd0) & (_ & _ & Hh & _)
        & (_ & _ & Hc & _)).
  rewrite !count_events_app. split; [|lia].
  destruct (configMode d); [lia|]. rewrite (Hd0 eq_refl). cbn. lia.
Qed.

(** The pages of the handlers that only send. *)
Lemma handleClient_404 e req d :
  is_submission req = false -> is_reset req = false ->
  exists evs, handleClient e req d = Running (set_trace (evs ++ trace d) d) /\
              count_events is_404 evs = answered_404 req d.
Proof.
  intros Hs Hr. destruct req as [r|]; cbn [handleClient answered_404].
  2:{ exists []. destruct d; split; reflexivity. }
  unfold routed, get_route, post_route. cbn in Hs, Hr.
  destruct (method r); cbn in Hs, Hr.
  - repeat match goal with |- context [String.eqb ?a ?b] => destruct (String.eqb a b) end;
      destruct (configMode d);
      eexists [_]; (split; [reflexivity | reflexivity]).
  - change (bool_decide (HTTP_POST = HTTP_POST)) with true in Hs, Hr.
    cbn [andb] in Hs, Hr. rewrite Hs, Hr. destruct (configMode d);
      eexists [_]; (split; [reflexivity | reflexivity]).
  - destruct (configMode d);
      eexists [_]; (split; [reflexivity | reflexivity]).
Qed.

Lemma check_link_404 e d :
  count_events is_404 (trace (check_link e d)) = count_events is_404 (trace d).
Proof.
  destruct (check_link_frame e d) as (_ & _ & _ & _ & [-> | ->]);
    [reflexivity | rewrite count_events_cons; reflexivity].
Qed.

(** X11.  "Not found" is never sent from the portal.  In one pass of
    [loop()], a response 404 goes out exactly when the pass starts outside
    the portal and its request has no handler registered for its method
    and path; a pass that starts in the portal answers every request with
    a page (the captive-portal catch-all), and submissions and resets are
    never answered 404. *)
Theorem not_found_only_outside_portal (e : Env) (t : Tick) (d : Device) :
  count_events is_404 (trace (loop e t d))
  = (answered_404 (http t) d + count_events is_404 (trace d))%nat.
Proof.
  remember (if configMode d
            then DNSServer.processNextRequest (dns_query t) d else d) as d0
    eqn:Hd0.
  assert (H0 : configMode d0 = configMode d /\
               count_events is_404 (trace d0) = count_events is_404 (trace d)).
  { rewrite Hd0. destruct (configMode d) eqn:Hc; [|split; [exact Hc|reflexivity]].
    destruct (processNextRequest_trace (dns_query t) d)
      as (_ & Hcm & [-> | (ev & Hev & ->)]).
    - split; [rewrite Hcm; exact Hc | reflexivity].
    - split; [rewrite Hcm; exact Hc|]. rewrite count_events_cons.
      destruct ev; try discriminate; reflexivity. }
  destruct H0 as (Hcm & H404).
  assert (Ha : answered_404 (http t) d0 = answered_404 (http t) d).
  { unfold answered_404. rewrite Hcm. reflexivity. }
  destruct (is_reset (http t)) eqn:Hres.
  - rewrite (loop_restarted e t d d0 Hd0 Hres).
    destruct (handleReset_trace e d0) as (bs & -> & Hbs).
    assert (Hr : exists r, http t = Some r /\ routed r = true).
    { destruct (http t) as [r|]; [|discriminate]. exists r. split; [reflexivity|].
      cbn in Hres. apply andb_prop in Hres as [Hm Hu].
      apply bool_decide_eq_true in Hm. unfold routed, post_route.
      rewrite Hm, Hu. apply orb_true_r. }
    destruct Hr as (r & Hreq & Hrt). rewrite <- Ha, Hreq.
    unfold answered_404. rewrite Hrt.
    rewrite count_events_app, !count_events_cons, H404.
    destruct Hbs as [-> | (n & p & ->)]; destruct (configMode d0); reflexivity.
  - destruct (is_submission (http t)) eqn:Hsub.
    + destruct (handleClient_submission e _ d0 Hsub) as (r & Hreq & Hc).
      rewrite (loop_running e t d d0 _ Hd0 Hc), trace_delay, check_link_404.
      rewrite handleConnect_trace, !count_events_cons, H404.
      assert (Hrt : routed r = true).
      { rewrite Hreq in Hsub. cbn in Hsub. apply andb_prop in Hsub as [Hm Hu].
        apply bool_decide_eq_true in Hm. unfold routed, post_route.
        rewrite Hm, Hu. reflexivity. }
      rewrite <- Ha, Hreq. unfold answered_404. rewrite Hrt.
      destruct (configMode d0); reflexivity.
    + destruct (handleClient_404 e _ d0 Hsub Hres) as (evs & Hc & Hevs).
      rewrite (loop_running e t d d0 _ Hd0 Hc), trace_delay, check_link_404.
      change (trace (set_trace (evs ++ trace d0) d0)) with (evs ++ trace d0).
      rewrite count_events_app, Hevs, Ha, H404. reflexivity.
Qed.

(** ** Submissions, later on *)

(** X12.  What a submission stored is what the next boot tries.  Take a
    submission with a non-empty name of at most 32 bytes and a secret of
    at most 64 bytes, both without NUL, handled from a state with no
    storage handle open.  Whether or not the submission connected, a boot
    from the flash it left (after a power cycle, say) loads that name and
    secret and makes its one attempt with them. *)
Theorem stored_submission_tried_at_boot (e e' : Env) (r : Request) (d : Device) :
  prefs d = None ->
  is_c_string (Server.arg "ssid" r) -> is_c_string (Server.arg "password" r) ->
  (0 < String.length (Server.arg "ssid" r) <= SSID_MAX)%nat ->
  (String.length (Server.arg "password" r) <= SECRET_MAX)%nat ->
  let d' := boot e' (nvs (handleConnect e r d)) in
  ssid d' = Server.arg "ssid" r /\ password d' = Server.arg "password" r /\
  trace d' = [EvBegin (Server.arg "ssid" r) (Server.arg "password" r)].
Proof.
  intros Hp Hn Hs [Hn0 Hln] Hls d'. subst d'.
  destruct (handleConnect_store e r d) as (Hnvs & _).
  set (d1 := delay 1000 _) in Hnvs.
  destruct (saveCredentials_stored (Server.arg "ssid" r) (Server.arg "password" r)
              d1 Hp) as (Hsn & Hss).
  { rewrite Hn. unfold SSID_MAX, NVS_STR_MAX in *. lia. }
  { rewrite Hs. unfold SECRET_MAX, NVS_STR_MAX in *. lia. }
  rewrite Hn in Hsn. rewrite Hs in Hss.
  unfold Preferences.stored in Hsn, Hss. rewrite <- Hnvs in Hsn, Hss.
  destruct (boot_reads e' (nvs (handleConnect e r d))) as (_ & Hbs & Hbp & Hbt).
  rewrite Hsn in Hbs, Hbt. rewrite Hss in Hbp, Hbt. cbn [default] in Hbs, Hbp, Hbt.
  unfold id in Hbs, Hbp, Hbt. rewrite Hn, Hs in Hbt.
  rewrite (proj2 (Nat.ltb_lt _ _) Hn0) in Hbt.
  repeat split; assumption.
Qed.

Lemma stored_submission_tried_at_boot_witness :
  prefs (boot air_down home_flash) = None /\
  configMode (handleConnect air_down office_request (boot air_down home_flash))
  = true /\
  trace (boot air_up
           (nvs (handleConnect air_down office_request
                   (boot air_down home_flash))))
  = [EvBegin "office" "pw"].
Proof.
  split; [reflexivity|]. split; [reflexivity|].
  apply (stored_submission_tried_at_boot air_down air_up office_request
           (boot air_down home_flash));
    first [reflexivity | vm_compute; lia].
Defined.

(** X13.  After a submission that connected, the link check re-attempts
    with the submitted identity.  When [handleConnect] has ended outside
    the portal and a later pass of [loop()] without request reads a status
    other than connected, that pass makes its attempt with the C strings
    of the submitted name and secret, which is what the submission itself
    had tried. *)
Theorem reconnect_uses_submitted_identity (e : Env) (r : Request)
    (q : option string) (d : Device) :
  prefs d = None ->
  configMode (handleConnect e r d) = false ->
  air e (polls (handleConnect e r d)) <> WL_CONNECTED ->
  exists evs,
    trace (handleConnect e r d)
    = EvBegin (c_str (Server.arg "ssid" r)) (c_str (Server.arg "password" r))
        :: evs /\
    trace (loop e {| dns_query := q; http := None |} (handleConnect e r d))
    = EvBegin (c_str (Server.arg "ssid" r)) (c_str (Server.arg "password" r))
        :: trace (handleConnect e r d).
Proof.
  intros Hp Hc Hlost.
  destruct (handleConnect_settled e r d Hp) as (_ & [(_ & Hm & _) | (Hc' & _)]);
    [|congruence].
  destruct (handleConnect_store e r d) as (_ & Hs & Hpw).
  eexists. split; [apply handleConnect_trace|].
  pose proof (loop_link_check e q (handleConnect e r d) Hc) as Hl.
  rewrite Hm in Hl. specialize (Hl eq_refl). cbv zeta in Hl.
  rewrite (bool_decide_eq_false_2 _ Hlost) in Hl.
  destruct Hl as (Htr & _). rewrite Hs, Hpw in Htr. exact Htr.
Qed.

Lemma reconnect_uses_submitted_identity_witness :
  prefs (boot air_up ∅) = None /\
  configMode (handleConnect air_blip office_request (boot air_up ∅)) = false /\
  trace (loop air_blip idle_tick
           (handleConnect air_blip office_request (boot air_up ∅)))
  = [EvBegin "office" "pw"; EvBegin "office" "pw";
     EvSend 200 "text/html" (Html (PageConnect "office"))].
Proof.
  split; [reflexivity|]. split; [reflexivity|].
  destruct (reconnect_uses_submitted_identity air_blip office_request None
              (boot air_up ∅)) as (evs & _ & H);
    [reflexivity | reflexivity | discriminate | exact H].
Defined.

(** ** The store *)

(** The flash after [saveCredentials], when both values fit. *)
Lemma saveCredentials_nvs newSSID newPassword d :
  prefs d = None ->
  (String.length (c_str newSSID) <= NVS_STR_MAX)%nat ->
  (String.length (c_str newPassword) <= NVS_STR_MAX)%nat ->
  nvs (saveCredentials newSSID newPassword d)
  = <["wifi" := <["password" := c_str newPassword]>
                  (<["ssid" := c_str newSSID]> (default ∅ (nvs d !! "wifi")))]>
      (nvs d).
Proof.
  intros Hp Hn Hpw. unfold saveCredentials, Preferences.begin_. rewrite Hp.
  unfold Preferences.putString. cbn [prefs set_prefs].
  rewrite (proj2 (Nat.leb_le _ _) Hn). cbn [prefs set_prefs set_nvs].
  rewrite (proj2 (Nat.leb_le _ _) Hpw).
  cbn [nvs set_nvs Preferences.end_ set_prefs set_ssid set_password].
  rewrite lookup_insert_eq. cbn [default]. apply insert_insert_eq.
Qed.

(** X14.  The last save wins, wholly.  For values that fit the storage,
    saving one identity and then another leaves the flash exactly as
    saving the second alone would have: nothing of the first remains, and
    the store then holds the C strings of the second name and secret. *)
Theorem last_save_wins (n1 p1 n2 p2 : string) (d : Device) :
  prefs d = None ->
  (String.length (c_str n1) <= NVS_STR_MAX)%nat ->
  (String.length (c_str p1) <= NVS_STR_MAX)%nat ->
  (String.length (c_str n2) <= NVS_STR_MAX)%nat ->
  (String.length (c_str p2) <= NVS_STR_MAX)%nat ->
  nvs (saveCredentials n2 p2 (saveCredentials n1 p1 d))
  = nvs (saveCredentials n2 p2 d) /\
  Preferences.stored "wifi" "ssid" (saveCredentials n2 p2 (saveCredentials n1 p1 d))
  = Some (c_str n2) /\
  Preferences.stored "wifi" "password"
    (saveCredentials n2 p2 (saveCredentials n1 p1 d)) = Some (c_str p2).
Proof.
  intros Hp H1 H2 H3 H4.
  destruct (saveCredentials_frame n1 p1 d Hp) as (Hp1 & _).
  split; [|apply (saveCredentials_stored n2 p2 _ Hp1 H3 H4)].
  rewrite (saveCredentials_nvs n2 p2 _ Hp1 H3 H4).
  rewrite (saveCredentials_nvs n1 p1 d Hp H1 H2).
  rewrite (saveCredentials_nvs n2 p2 d Hp H3 H4).
  rewrite lookup_insert_eq. cbn [default]. rewrite insert_insert_eq.
  f_equal. apply map_eq. intros k.
  destruct (decide (k = "password")) as [->|Hk1];
    [rewrite !lookup_insert_eq; reflexivity|].
  rewrite !(lookup_insert_ne _ "password") by congruence.
  destruct (decide (k = "ssid")) as [->|Hk2];
    [rewrite !lookup_insert_eq; reflexivity|].
  rewrite !(lookup_insert_ne _ "ssid") by congruence.
  unfold id. rewrite !lookup_insert_ne by congruence. reflexivity.
Qed.

Lemma last_save_wins_witness :
  prefs (power_on home_flash) = None /\
  nvs (saveCredentials "office" "pw" (saveCredentials "cafe" "" (power_on home_flash)))
  = nvs (saveCredentials "office" "pw" (power_on home_flash)).
Proof.
  split; [reflexivity|].
  apply (last_save_wins "cafe" "" "office" "pw" (power_on home_flash));
    first [reflexivity | vm_compute; lia].
Defined.

Lemma saveCredentials_other_ns newSSID newPassword d ns :
  prefs d = None -> ns <> "wifi" ->
  nvs (saveCredentials newSSID newPassword d) !! ns = nvs d !! ns.
Proof.
  intros Hp Hns. unfold saveCredentials, Preferences.begin_. rewrite Hp.
  unfold Preferences.putString. cbn [prefs set_prefs].
  destruct (_ <=? _)%nat; cbn [prefs set_prefs set_nvs];
    destruct (_ <=? _)%nat;
    cbn [nvs set_nvs Preferences.end_ set_prefs set_ssid set_password];
    rewrite ?lookup_insert_ne by congruence; reflexivity.
Qed.

(** X15.  The sketch stays inside its namespace.  Whatever a pass of
    [loop()] does, a submission and a reset included, every namespace of
    the flash other than ["wifi"] is after the pass what it was before
    (from a state with no storage handle open). *)
Theorem other_namespaces_untouched (e : Env) (t : Tick) (d : Device) (ns : string) :
  prefs d = None -> ns <> "wifi" ->
  nvs (loop e t d) !! ns = nvs d !! ns.
Proof.
  intros Hp Hns.
  remember (if configMode d
            then DNSServer.processNextRequest (dns_query t) d else d) as d0
    eqn:Hd0.
  assert (H0 : nvs d0 = nvs d /\ prefs d0 = None).
  { rewrite Hd0. destruct (configMode d); [|split; [reflexivity|exact Hp]].
    destruct (processNextRequest_quiet (dns_query t) d) as (evs & -> & _).
    split; [reflexivity|exact Hp]. }
  destruct H0 as (Hn0 & Hp0).
  destruct (is_reset (http t)) eqn:Hres.
  - rewrite (loop_restarted e t d d0 Hd0 Hres).
    destruct (handleReset_spec e d0 Hp0) as (-> & _).
    rewrite lookup_delete_ne by congruence. rewrite Hn0. reflexivity.
  - pose proof (handleClient_control e (http t) d0) as Hctl.
    rewrite Hres in Hctl. destruct Hctl as (d1 & Hc).
    rewrite (loop_running e t d d0 d1 Hd0 Hc).
    change (nvs (delay 10 (check_link e d1))) with (nvs (check_link e d1)).
    destruct (check_link_frame e d1) as (-> & _).
    destruct (is_submission (http t)) eqn:Hsub.
    + destruct (handleClient_submission e _ d0 Hsub) as (r & _ & Hc').
      rewrite Hc' in Hc. injection Hc as <-.
      destruct (handleConnect_store e r d0) as (-> & _).
      rewrite saveCredentials_other_ns by (exact Hp0 || exact Hns).
      cbn [nvs delay set_millis Server.send set_trace]. rewrite Hn0. reflexivity.
    + destruct (handleClient_other e _ d0 Hsub Hres) as (evs & Hc' & _).
      rewrite Hc' in Hc. injection Hc as <-. cbn [nvs set_trace].
      rewrite Hn0. reflexivity.
Qed.

Lemma other_namespaces_untouched_witness :
  prefs (boot air_up shared_flash) = None /\
  nvs (loop air_up {| dns_query := None;
                      http := Some {| method := HTTP_POST; uri := "/reset";
                                      args := [] |} |}
         (boot air_up shared_flash)) !! "calib"
  = Some (<["offset" := "12"]> ∅).
Proof.
  split; [reflexivity|].
  apply (other_namespaces_untouched air_up _ (boot air_up shared_flash) "calib");
    [reflexivity | discriminate].
Defined.

(** ** The list of networks *)

Lemma string_app_assoc (a b c : string) : (a +:+ b) +:+ c = a +:+ (b +:+ c).
Proof.
  induction a as [|x a IH]; [reflexivity|].
  change (String x ((a +:+ b) +:+ c) = String x (a +:+ (b +:+ c))).
  f_equal. exact IH.
Qed.

Lemma string_app_nil_r (a : string) : a +:+ EmptyString = a.
Proof.
  induction a as [|x a IH]; [reflexivity|].
  change (String x (a +:+ EmptyString) = String x a). f_equal. exact IH.
Qed.

Lemma scan_row_app sc i html :
  scan_row sc i html = html +:+ scan_row_text sc i.
Proof.
  unfold scan_row_text, scan_row. cbn [String.append].
  rewrite !string_app_assoc. reflexivity.
Qed.

Lemma scan_fold sc l : forall html,
  fold_left (fun html i => scan_row sc i html) l html
  = html +:+ fold_right (fun i rest => scan_row_text sc i +:+ rest) EmptyString l.
Proof.
  induction l as [|i l IH]; intros html; cbn [fold_left fold_right].
  - symmetry. apply string_app_nil_r.
  - rewrite IH, scan_row_app, string_app_assoc. reflexivity.
Qed.

(** X16.  The list of networks of the scan page.  When the scan found no
    network the block holds the line "No networks found".  When the scan
    returned a negative number (scan still running, or failed) the block
    is empty: no row and no such line either.  Otherwise it holds one row
    per index below the number found, in order, each with the name as
    reported (not escaped), "Open" for an open network and "Secured" for
    any other, and the signal strength. *)
Theorem scan_list_block (sc : Scan) (html : string) :
  (scan_n sc = 0 ->
   scan_networks sc html
   = html +:+ "<div id='networks'>"
     +:+ "<p style='text-align: center;'>No networks found</p>" +:+ "</div>") /\
  (scan_n sc < 0 ->
   scan_networks sc html = html +:+ "<div id='networks'>" +:+ "</div>") /\
  (0 < scan_n sc ->
   scan_networks sc html
   = html +:+ "<div id='networks'>" +:+ scan_rows sc +:+ "</div>") /\
  (forall i,
     scan_row_text sc i
     = "<div class='network' onclick='selectNetwork(" +:+ dq +:+ scan_SSID sc i
       +:+ dq +:+ ")'>" +:+ "<div><strong>" +:+ scan_SSID sc i
       +:+ "</strong><br><small>"
       +:+ (if bool_decide (scan_encryptionType sc i = WIFI_AUTH_OPEN)
            then "Open" else "Secured")
       +:+ "</small></div>" +:+ "<div class='signal'>"
       +:+ String_of_int (scan_RSSI sc i) +:+ " dBm</div>" +:+ "</div>").
Proof.
  split; [|split; [|split]].
  - intros Hn. unfold scan_networks. rewrite Hn. cbn [Z.eqb].
    rewrite !string_app_assoc. reflexivity.
  - intros Hn. unfold scan_networks.
    destruct (scan_n sc =? 0) eqn:Hz; [apply Z.eqb_eq in Hz; lia|].
    replace (Z.to_nat (scan_n sc)) with 0%nat by lia.
    cbn [seq map fold_left]. rewrite string_app_assoc. reflexivity.
  - intros Hn. unfold scan_networks, scan_rows.
    destruct (scan_n sc =? 0) eqn:Hz; [apply Z.eqb_eq in Hz; lia|].
    rewrite scan_fold, !string_app_assoc. reflexivity.
  - intros i. unfold scan_row_text, scan_row. cbn [String.append].
    rewrite !string_app_assoc. reflexivity.
Qed.

(** The block for a scan that found two networks, and for one that
    failed. *)
Example scan_list_two_networks :
  scan_networks two_networks EmptyString
  = "<div id='networks'>"
    +:+ "<div class='network' onclick='selectNetwork(" +:+ dq +:+ "home" +:+ dq
    +:+ ")'><div><strong>home</strong><br><small>Secured</small></div>"
    +:+ "<div class='signal'>-40 dBm</div></div>"
    +:+ "<div class='network' onclick='selectNetwork(" +:+ dq +:+ "cafe" +:+ dq
    +:+ ")'><div><strong>cafe</strong><br><small>Open</small></div>"
    +:+ "<div class='signal'>-71 dBm</div></div>"
    +:+ "</div>" /\
  scan_networks failed_scan EmptyString = "<div id='networks'></div>".
Proof. split; reflexivity. Qed.

(** ** The portal session *)

Lemma setup_clean e d :
  prefs d = None -> dns d = None -> softap d = None -> settled_clean (setup e d).
Proof.
  intros Hp Hdns Hap. unfold setup, initializeGPIO.
  set (d1 := loadCredentials (delay 1000 d)).
  destruct (loadCredentials_frame (delay 1000 d) Hp)
    as (_ & Hp1 & _ & _ & _ & _ & _ & _ & Hap1 & Hdns1 & _).
  fold d1 in Hp1, Hap1, Hdns1.
  change (softap (delay 1000 d)) with (softap d) in Hap1.
  change (dns (delay 1000 d)) with (dns d) in Hdns1.
  destruct (0 <? String.length (ssid d1))%nat.
  - pose proof (connectToWiFi_outcome e (c_str (ssid d1)) (c_str (password d1)) d1) as Ho.
    destruct (connectToWiFi e _ _ d1) as [ok d2].
    destruct Ho as (_ & Hp2 & _ & _ & Hap2 & Hdns2 & Hm & _ & Hok).
    destruct ok; cbn [negb].
    + destruct Hok. split; [congruence|]. left.
      repeat split; try assumption; congruence.
    + split; [cbn; congruence|]. right. apply startConfigPortal_portal.
  - split; [cbn; congruence|]. right. apply startConfigPortal_portal.
Qed.

Lemma handleConnect_clean e r d :
  prefs d = None -> settled_clean (handleConnect e r d).
Proof.
  intros Hp. unfold handleConnect.
  set (n := Server.arg "ssid" r). set (p := Server.arg "password" r).
  set (d1 := delay 1000 (Server.send 200 "text/html" (Html (PageConnect n)) d)).
  destruct (saveCredentials_frame n p d1 Hp) as (Hp2 & _).
  set (d2 := WiFi.softAPdisconnect true (DNSServer.stop (saveCredentials n p d1))).
  assert (Hp3 : prefs d2 = None) by exact Hp2.
  assert (Hdns : dns d2 = None) by reflexivity.
  assert (Hap : softap d2 = None) by reflexivity.
  pose proof (connectToWiFi_outcome e (c_str n) (c_str p) d2) as Ho.
  destruct (connectToWiFi e _ _ d2) as [ok d3].
  destruct Ho as (_ & Hp4 & _ & _ & Hap3 & Hdns3 & Hm & _ & Hok).
  destruct ok.
  - destruct Hok as [_ Hst]. split; [cbn; congruence|]. left.
    repeat split; try assumption; cbn; congruence.
  - split; [cbn; congruence|]. right. repeat split.
Qed.

Lemma check_link_clean e d : settled_clean d -> settled_clean (check_link e d).
Proof.
  intros [Hp Hm]. unfold check_link.
  destruct (configMode d) eqn:Hc; [split; assumption|].
  destruct Hm as [((_ & Hmode & _) & Hdns & Hap) | (Hc' & _)]; [|congruence].
  rewrite status_up by (rewrite Hmode; reflexivity).
  destruct (bool_decide _) eqn:Hst.
  - apply bool_decide_eq_true in Hst. split; [exact Hp|]. left.
    repeat split; assumption.
  - set (d1 := set_polls _ _).
    pose proof (connectToWiFi_outcome e (c_str (ssid d1)) (c_str (password d1)) d1) as Ho.
    destruct (connectToWiFi e _ _ d1) as [ok d2].
    destruct Ho as (_ & Hp2 & _ & _ & Hap2 & Hdns2 & Hm2 & _ & Hok).
    assert (Hp1 : prefs d1 = None) by exact Hp.
    assert (Hdns1 : dns d1 = None) by exact Hdns.
    assert (Hap1 : softap d1 = None) by exact Hap.
    destruct ok; cbn [negb].
    + destruct Hok. split; [congruence|]. left.
      repeat split; try assumption; congruence.
    + split; [cbn; congruence|]. right. apply startConfigPortal_portal.
Qed.

Lemma settled_clean_delay ms d : settled_clean d -> settled_clean (delay ms d).
Proof. intros H. exact H. Qed.

Lemma settled_clean_set_trace tr d :
  settled_clean d -> settled_clean (set_trace tr d).
Proof. intros H. exact H. Qed.

Lemma loop_clean e t d : settled_clean d -> settled_clean (loop e t d).
Proof.
  intros Hs.
  remember (if configMode d
            then DNSServer.processNextRequest (dns_query t) d else d) as d0
    eqn:Hd0.
  assert (Hs0 : settled_clean d0).
  { rewrite Hd0. destruct (configMode d); [|exact Hs].
    destruct (processNextRequest_quiet (dns_query t) d) as (evs & -> & _).
    exact Hs. }
  destruct (is_reset (http t)) eqn:Hres.
  - rewrite (loop_restarted e t d d0 Hd0 Hres).
    unfold handleReset, ESP_restart. apply setup_clean; reflexivity.
  - destruct (is_submission (http t)) eqn:Hsub.
    + destruct (handleClient_submission e _ d0 Hsub) as (r & _ & Hc).
      rewrite (loop_running e t d d0 _ Hd0 Hc).
      apply settled_clean_delay, check_link_clean, handleConnect_clean, Hs0.
    + destruct (handleClient_other e _ d0 Hsub Hres) as (evs & Hc & _).
      rewrite (loop_running e t d d0 _ Hd0 Hc).
      apply settled_clean_delay, check_link_clean, settled_clean_set_trace, Hs0.
Qed.

Lemma run_clean e ticks : forall d, settled_clean d -> settled_clean (run e ticks d).
Proof.
  induction ticks as [|t ticks IH]; intros d Hs; [exact Hs|].
  cbn [run fold_left]. apply IH, loop_clean, Hs.
Qed.

(** X17.  The portal session lives exactly as long as the portal.  After
    [setup()] and after every pass of [loop()], for every flash, radio and
    sequence of queries and requests: when the portal flag is set the
    access point is up under its fixed name and passphrase and the
    resolver is started on port 53 for every name, resolving to the access
    point's address; when the flag is clear the resolver is stopped, the
    access point is down and the radio is a station with its link up.  No
    session is left behind on the way out of the portal, and none is
    missing on the way in. *)
Theorem portal_session_lifetime (e : Env) (flash : gmap string (gmap string string))
    (ticks : list Tick) :
  let d := run e ticks (boot e flash) in
  if configMode d
  then dns d = Some {| dns_port := DNS_PORT; dns_domain := "*";
                       dns_ip := AP_DEFAULT_IP |} /\
       softap d = Some (ap_ssid, ap_password) /\ wifi_mode d = WIFI_AP /\
       WiFi.softAPIP d = AP_DEFAULT_IP
  else dns d = None /\ softap d = None /\ wifi_mode d = WIFI_STA /\
       sta_status d = WL_CONNECTED.
Proof.
  intros d.
  assert (Hs : settled_clean d).
  { apply run_clean, setup_clean; reflexivity. }
  destruct Hs as (_ & [((Hc & Hm & Hst) & Hdns & Hap) | Hpo]).
  - rewrite Hc. repeat split; assumption.
  - pose proof (portal_softAPIP d Hpo) as Hip.
    destruct Hpo as (Hc & Hm & _ & Hap & Hdns). rewrite Hc.
    repeat split; assumption.
Qed.

(** ** The order of a submission *)

(** X18.  A submission is answered first and attempted once.  From every
    state and for every request, [handleConnect] adds exactly two events
    to the record: the confirmation page (200, naming the submitted
    name), and after it exactly one [WiFi.begin], with the C strings of the
    submitted name and secret.  When the handler returns outside the
    portal the resolver is stopped and the access point is down; when it
    returns in the portal the resolver is running again. *)
Theorem submission_answered_then_attempted (e : Env) (r : Request) (d : Device) :
  trace (handleConnect e r d)
  = EvBegin (c_str (Server.arg "ssid" r)) (c_str (Server.arg "password" r))
      :: EvSend 200 "text/html" (Html (PageConnect (Server.arg "ssid" r)))
      :: trace d /\
  (if configMode (handleConnect e r d)
   then dns (handleConnect e r d)
        = Some {| dns_port := DNS_PORT; dns_domain := "*";
                  dns_ip := AP_DEFAULT_IP |}
   else dns (handleConnect e r d) = None /\ softap (handleConnect e r d) = None).
Proof.
  split; [apply handleConnect_trace|].
  unfold handleConnect.
  set (n := Server.arg "ssid" r). set (p := Server.arg "password" r).
  set (d2 := WiFi.softAPdisconnect true _).
  assert (Hdns : dns d2 = None) by reflexivity.
  assert (Hap : softap d2 = None) by reflexivity.
  pose proof (connectToWiFi_outcome e (c_str n) (c_str p) d2) as Ho.
  destruct (connectToWiFi e _ _ d2) as [ok d3].
  destruct Ho as (_ & _ & _ & _ & Hap3 & Hdns3 & _ & _ & Hok).
  destruct ok.
  - cbn [configMode delay set_millis set_configMode dns softap].
    split; congruence.
  - reflexivity.
Qed.
